(** * procps [w]: best-process selection and the FROM column

    A shallow embedding of the core of [src/w.c]:
    - [find_best_proc], the scan of the process table that accumulates the
      session's cpu time and picks the process shown in the WHAT column;
    - [print_host], [print_display_or_interface] and [print_from], which
      render the FROM column;
    - the early exit of [showinfo] on a stale entry, the cleaning of
      its tty name and its WHAT column;
    - [get_tty_device], over a file system given as a function;
    - [print_time_ival7];
    - the widths that [main] computes.

    Integers of type [int], [pid_t] and [unsigned] are values in [Z]; they
    are only copied and compared.  The [unsigned long long] accumulator
    [*jcpu] is the one place where the code does arithmetic on process
    data, and its addition is written with the reduction modulo [2^64].
    Characters are [ascii]; text written to [stdout] is a [list ascii]. *)

From Stdlib Require Import ZArith List Ascii Bool Lia Permutation.
From Stdlib Require String.
Import ListNotations.
Import String.StringSyntax.
Delimit Scope string_scope with string.
Local Open Scope Z_scope.

(** ** C strings and char arrays *)

Definition NUL : ascii := Ascii.zero.

(** The characters of a string literal. *)
Definition chars (s : String.string) : list ascii :=
  String.list_ascii_of_string s.

(** A char array read as a C string: the bytes before the first NUL. *)
Fixpoint cstr (a : list ascii) : list ascii :=
  match a with
  | [] => []
  | c :: r => if Ascii.eqb c NUL then [] else c :: cstr r
  end.

Definition strlen (a : list ascii) : Z := Z.of_nat (length (cstr a)).

(** [strncpy(dst, src, n)] writes exactly [n] bytes of [dst]: the string
    [src], cut at [n] bytes, then NUL bytes up to [n].  Bytes of [dst]
    from offset [n] on keep their value. *)
Definition strncpy (dst src : list ascii) (n : nat) : list ascii :=
  firstn n (cstr src ++ repeat NUL n) ++ skipn n dst.

(** [strcpy(dst, src)]: the string and its terminator; the rest of [dst]
    keeps its value. *)
Definition strcpy (dst src : list ascii) : list ascii :=
  cstr src ++ NUL :: skipn (S (length (cstr src))) dst.

(** [const char *]: the byte found at each offset from the pointer. *)
Definition cptr : Type := nat -> ascii.

(** The pointer to the first element of a char array.  Offsets past the
    modelled bytes read as NUL. *)
Definition ptr_of (a : list ascii) : cptr := fun i => nth i a NUL.

(** ** The process table

    One [pids_stack] per process, with the ten items that [cache_pids]
    requests, named after [enum rel_items]. *)

Record pids_stack : Type := {
  EU_PID : Z;
  EU_TGID : Z;
  EU_START : Z;
  EU_EUID : Z;
  EU_RUID : Z;
  EU_TPGID : Z;
  EU_PGRP : Z;
  EU_TTY : Z;
  EU_TICS_ALL : Z;
  EU_CMDLINE : list ascii
}.

Definition MAX_CMD_WIDTH : nat := 512.

(** Range of [unsigned long long]. *)
Definition ULLONG_RANGE : Z := 2 ^ 64.

(** [~0U], the value of [uid] when no user was looked up. *)
Definition UINT_ALL_ONES : Z := 2 ^ 32 - 1.

(** The [unsigned long long] items of a stack hold values of that type. *)
Definition ull_items_ok (p : pids_stack) : Prop :=
  0 <= EU_START p < ULLONG_RANGE /\ 0 <= EU_TICS_ALL p < ULLONG_RANGE.

(** ** [find_best_proc]

    [scan] gathers the locals of [find_best_proc] that live across loop
    iterations together with the objects behind its out-parameters
    [jcpu], [pcpu], [cmdline] and [pid]. *)

Record scan : Type := {
  found_utpid : Z;
  best_time : Z;
  secondbest_time : Z;
  jcpu : Z;
  pcpu : Z;
  cmdline : list ascii;
  pid : Z
}.

Definition set_found_utpid (st : scan) (v : Z) : scan :=
  {| found_utpid := v; best_time := best_time st;
     secondbest_time := secondbest_time st; jcpu := jcpu st; pcpu := pcpu st;
     cmdline := cmdline st; pid := pid st |}.

Definition set_best_time (st : scan) (v : Z) : scan :=
  {| found_utpid := found_utpid st; best_time := v;
     secondbest_time := secondbest_time st; jcpu := jcpu st; pcpu := pcpu st;
     cmdline := cmdline st; pid := pid st |}.

Definition set_secondbest_time (st : scan) (v : Z) : scan :=
  {| found_utpid := found_utpid st; best_time := best_time st;
     secondbest_time := v; jcpu := jcpu st; pcpu := pcpu st;
     cmdline := cmdline st; pid := pid st |}.

Definition set_jcpu (st : scan) (v : Z) : scan :=
  {| found_utpid := found_utpid st; best_time := best_time st;
     secondbest_time := secondbest_time st; jcpu := v; pcpu := pcpu st;
     cmdline := cmdline st; pid := pid st |}.

(** The three assignments that always come together:
    [strncpy(cmdline, PIDS_GETSTR(CMDLINE), MAX_CMD_WIDTH);]
    [*pid = PIDS_GETULL(PID); *pcpu = PIDS_GETULL(TICS_ALL);] *)
Definition set_candidate (st : scan) (p : pids_stack) : scan :=
  {| found_utpid := found_utpid st; best_time := best_time st;
     secondbest_time := secondbest_time st; jcpu := jcpu st;
     pcpu := EU_TICS_ALL p;
     cmdline := strncpy (cmdline st) (EU_CMDLINE p) MAX_CMD_WIDTH;
     pid := EU_PID p |}.

(** [cmdline[0] == '-' && cmdline[1] == '\0'] *)
Definition is_placeholder (buf : list ascii) : bool :=
  Ascii.eqb (nth 0 buf NUL) "-" && Ascii.eqb (nth 1 buf NUL) NUL.

Section Selector.

(** The global [ignoreuser], the looked-up [uid], the device number
    [line] returned by [get_tty_device] and the login pid [ut_pid]. *)
Variable ignoreuser : bool.
Variable uid : Z.
Variable line : Z.
Variable ut_pid : Z.

(** "is this the login process?" *)
Definition leader_step (st : scan) (p : pids_stack) : scan :=
  if EU_TGID p =? ut_pid then
    let st := set_found_utpid st 1 in
    if best_time st =? 0
    then set_candidate (set_best_time st (EU_START p)) p
    else st
  else st.

(** The accumulation into the object behind [jcpu], an addition of
  [unsigned long long] values. *)
Definition add_jcpu (st : scan) (p : pids_stack) : scan :=
  set_jcpu st ((jcpu st + EU_TICS_ALL p) mod ULLONG_RANGE).

(** [!(secondbest_time && PIDS_GETULL(START) <= secondbest_time)] *)
Definition interim_taken (st : scan) (p : pids_stack) : bool :=
  negb (negb (secondbest_time st =? 0) && (EU_START p <=? secondbest_time st)).

Definition interim_step (st : scan) (p : pids_stack) : scan :=
  if interim_taken st p then
    let st := set_secondbest_time st (EU_START p) in
    if is_placeholder (cmdline st) then set_candidate st p else st
  else st.

(** The condition of the last [continue]. *)
Definition filter_skip (st : scan) (p : pids_stack) : bool :=
  (negb ignoreuser && negb (uid =? EU_EUID p) && negb (uid =? EU_RUID p))
  || negb (EU_PGRP p =? EU_TPGID p)
  || (EU_START p <=? best_time st).

Definition filter_step (st : scan) (p : pids_stack) : scan :=
  if filter_skip st p then st
  else set_candidate (set_best_time st (EU_START p)) p.

(** One iteration of [for (i=0; i < total_procs; i++)]. *)
Definition loop_body (st : scan) (p : pids_stack) : scan :=
  let st := leader_step st p in
  if negb (EU_TTY p =? line) then st
  else filter_step (interim_step (add_jcpu st p) p) p.

Definition scan_procs (st : scan) (reap : list pids_stack) : scan :=
  fold_left loop_body reap st.

(** *** Which assignment block wrote the candidate

    Not part of the program: a label that follows the scan and records
    which of the three blocks was the last to execute [set_candidate]. *)

Inductive writer : Type :=
| ByCaller | ByLeaderSeed | ByInterim | ByFilter.

Definition leader_writes (st : scan) (p : pids_stack) : bool :=
  (EU_TGID p =? ut_pid) && (best_time st =? 0).

Definition interim_writes (st : scan) (p : pids_stack) : bool :=
  interim_taken st p && is_placeholder (cmdline st).

Definition filter_writes (st : scan) (p : pids_stack) : bool :=
  negb (filter_skip st p).

Definition last_writer (w : writer) (st : scan) (p : pids_stack) : writer :=
  let w := if leader_writes st p then ByLeaderSeed else w in
  let st := leader_step st p in
  if negb (EU_TTY p =? line) then w
  else
    let st := add_jcpu st p in
    let w := if interim_writes st p then ByInterim else w in
    let st := interim_step st p in
    if filter_writes st p then ByFilter else w.

Definition labelled_body (sw : scan * writer) (p : pids_stack)
  : scan * writer :=
  (loop_body (fst sw) p, last_writer (snd sw) (fst sw) p).

Definition labelled_scan (st : scan) (reap : list pids_stack) : scan * writer :=
  fold_left labelled_body reap (st, ByCaller).

End Selector.

(** The state at loop entry: [*jcpu = 0; *pcpu = 0;], zeroed locals, and
    the caller's [cmdline] and [pid] objects. *)
Definition scan_init (cmdline0 : list ascii) (pid0 : Z) : scan :=
  {| found_utpid := 0; best_time := 0; secondbest_time := 0;
     jcpu := 0; pcpu := 0; cmdline := cmdline0; pid := pid0 |}.

(** [find_best_proc].  [lookup] is the outcome of [sd_session_get_uid] or
    [getpwnam] ([None] when it fails); it is consulted only when
    [ignoreuser] is off.  [line] is the value of [get_tty_device(tty)].
    The returned [scan] carries the return value in [found_utpid] and the
    out-parameters in [jcpu], [pcpu], [cmdline] and [pid]. *)
Definition find_best_proc (ignoreuser : bool) (lookup : option Z)
    (line ut_pid : Z) (cmdline0 : list ascii) (pid0 : Z)
    (reap : list pids_stack) : scan :=
  if negb ignoreuser then
    match lookup with
    | None => scan_init cmdline0 pid0
    | Some uid =>
        scan_procs ignoreuser uid line ut_pid (scan_init cmdline0 pid0) reap
    end
  else
    scan_procs ignoreuser UINT_ALL_ONES line ut_pid
      (scan_init cmdline0 pid0) reap.

(** The label of [labelled_scan] for a call of [find_best_proc]. *)
Definition candidate_writer (ignoreuser : bool) (lookup : option Z)
    (line ut_pid : Z) (cmdline0 : list ascii) (pid0 : Z)
    (reap : list pids_stack) : writer :=
  if negb ignoreuser then
    match lookup with
    | None => ByCaller
    | Some uid =>
        snd (labelled_scan ignoreuser uid line ut_pid
               (scan_init cmdline0 pid0) reap)
    end
  else
    snd (labelled_scan ignoreuser UINT_ALL_ONES line ut_pid
           (scan_init cmdline0 pid0) reap).

(** The processes whose controlling terminal is [line], and the
    mathematical sum of their cpu tics. *)
Definition on_line (line : Z) (p : pids_stack) : bool := EU_TTY p =? line.

Definition tty_tics (line : Z) (reap : list pids_stack) : Z :=
  fold_right Z.add 0 (map EU_TICS_ALL (filter (on_line line) reap)).

(** ** [showinfo], up to the stale-entry exit

    [garbage] is the content of the automatic array [cmdline] before
    [strcpy(cmdline, "-")]; [report_line] stands for everything printed
    after the test of [find_best_proc]'s return value. *)
Definition showinfo (report_line : scan -> list ascii)
    (ignoreuser : bool) (lookup : option Z) (line ut_pid : Z)
    (garbage : list ascii) (reap : list pids_stack) : list ascii :=
  let best_pid := -1 in
  let cmdline := strcpy garbage (chars "-"%string) in
  let r := find_best_proc ignoreuser lookup line ut_pid cmdline best_pid reap in
  if found_utpid r =? 0 then [] else report_line r.

(** ** The FROM column *)

(** Output of a loop that writes [n] spaces when [n] is positive. *)
Definition spaces (n : Z) : list ascii := repeat " "%char (Z.to_nat n).

(** The offset of [end], that is [len > 0 ? len : 0]. *)
Definition field_end (len : Z) : nat :=
  Z.to_nat (if len >? 0 then len else 0).

Section Formatter.

(** [isprint] of [<ctype.h>] in the locale that [main] selects. *)
Variable isprint : ascii -> bool.

(** The [for] loop of [print_host]: [n] is [last - host], [i] the offset
    of the moving pointer; returns the text written and [width]. *)
Fixpoint print_host_loop (host : cptr) (n i : nat) (width : Z)
  : list ascii * Z :=
  match n with
  | O => ([], width)
  | S n' =>
      let c := host i in
      if Ascii.eqb c NUL then ([], width)
      else if isprint c && negb (Ascii.eqb c " ") then
        let (out, w) := print_host_loop host n' (S i) (width + 1) in
        (c :: out, w)
      else (["-"%char], width + 1)
  end.

Definition print_host (host : cptr) (len fromlen : Z) : list ascii :=
  let len := if len >? fromlen then fromlen else len in
  let (out, width) := print_host_loop host (Z.to_nat len) 0 0 in
  let (out, width) :=
    if width =? 0 then (out ++ ["-"%char], width + 1) else (out, width) in
  out ++ spaces (fromlen - width).

(** [while ((p < end) && ( *p != stop) && isprint( *p)) p++;] started at
    offset [i] with [n = end - i]; returns the final offset. *)
Fixpoint scan_until (stop : ascii) (host : cptr) (n i : nat) : nat :=
  match n with
  | O => i
  | S n' =>
      if negb (Ascii.eqb (host i) stop) && isprint (host i)
      then scan_until stop host n' (S i)
      else i
  end.

(** [while ((len > 0) && isprint( *p) && ( *p != ' ')) { len--; restlen--;]
    [fputc( *p, stdout); p++; }].  [len] drops by one per round, so
    [Z.to_nat len] rounds are all the loop can make.  Returns the text
    written and the final offset, [len] and [restlen]. *)
Fixpoint put_printable (host : cptr) (rounds i : nat) (len restlen : Z)
  : list ascii * (nat * Z * Z) :=
  match rounds with
  | O => ([], (i, len, restlen))
  | S r =>
      if (len >? 0) && isprint (host i) && negb (Ascii.eqb (host i) " ")
      then
        let (out, fin) := put_printable host r (S i) (len - 1) (restlen - 1) in
        (host i :: out, fin)
      else ([], (i, len, restlen))
  end.

(** The block that both branches of [print_display_or_interface] run once
    they hold the offset [i] of the separator and the number [len] of
    bytes from there to the end of the field: cut, print, dash.  Returns
    the text written and the remaining [restlen]. *)
Definition print_part (host : cptr) (i : nat) (len restlen : Z)
  : list ascii * Z :=
  let len := if len >? restlen then restlen else len in
  let '(out, (i, len, restlen)) :=
    put_printable host (Z.to_nat len) i len restlen in
  if (len >? 0) && negb (Ascii.eqb (host i) NUL)
  then (out ++ ["-"%char], restlen - 1)
  else (out, restlen).

Definition print_display_or_interface (host : cptr) (len restlen : Z)
  : list ascii :=
  let end_ := field_end len in
  if restlen <=? 0 then []
  else
    let disp := scan_until ":" host end_ 0 in
    let (out, restlen) :=
      if (disp <? end_)%nat && Ascii.eqb (host disp) ":" then
        let tmp := scan_until ":" host (end_ - (disp + 1)) (disp + 1) in
        if (end_ <=? tmp)%nat || negb (Ascii.eqb (host tmp) ":") then
          print_part host disp (len - Z.of_nat disp) restlen
        else
          let tmp := scan_until "%" host (end_ - tmp) tmp in
          if (tmp <? end_)%nat && Ascii.eqb (host tmp) "%" then
            print_part host tmp (len - Z.of_nat tmp) restlen
          else ([], restlen)
      else ([], restlen) in
    out ++ spaces restlen.

(** The fields of [utmp_t] that [print_from] reads: the array [ut_host]
    and the four words of [ut_addr_v6]. *)
Record utmp_t : Type := {
  ut_host : list ascii;
  ut_addr_v6 : Z * Z * Z * Z
}.

(** Header constants and library calls of [print_from]: the size of
    [ut_host], the macro [IN6_IS_ADDR_V4MAPPED], and [inet_ntop] for the
    two families.  An [inet_ntop] takes the address and the size of the
    destination and yields the text it stored, or [None] for NULL. *)
Variable UT_HOSTSIZE : Z.
Variable IN6_IS_ADDR_V4MAPPED : Z * Z * Z * Z -> bool.
Variable inet_ntop_AF_INET : Z -> Z -> option (list ascii).
Variable inet_ntop_AF_INET6 : Z * Z * Z * Z -> Z -> option (list ascii).

Definition INET6_ADDRSTRLEN : Z := 46.

(** The string held by [buf] once [buf[fromlen] = '\0'] is done.  In the
    IPv6 branch [strncpy(buf, buf_ipv6, fromlen)] copied at most
    [fromlen] bytes; in the IPv4 branch [inet_ntop] stored its text in
    the [fromlen + 1] bytes of [buf]; a failed call leaves [""]. *)
Definition address_text (addr : Z * Z * Z * Z) (fromlen : Z) : list ascii :=
  let addr :=
    if IN6_IS_ADDR_V4MAPPED addr
    then let '(_, _, _, w3) := addr in (w3, 0, 0, 0)
    else addr in
  let '(w0, w1, w2, w3) := addr in
  if negb (w1 =? 0) || negb (w2 =? 0) || negb (w3 =? 0) then
    match inet_ntop_AF_INET6 addr INET6_ADDRSTRLEN with
    | None => []
    | Some text => firstn (Z.to_nat fromlen) (cstr text)
    end
  else
    if negb (w0 =? 0) then
      match inet_ntop_AF_INET w0 (fromlen + 1) with
      | None => []
      | Some text => firstn (Z.to_nat fromlen) (cstr text)
      end
    else [].

(** [print_from].  [session] is [None] for a NULL session id and otherwise
    holds the host obtained from [sd_session_get_remote_host] ([None] when
    the call fails or yields no host); [u] is [None] for a NULL [utmp_t]
    pointer. *)
Definition print_from (session : option (option (list ascii)))
    (u : option utmp_t) (ip_addresses : bool) (fromlen : Z) : list ascii :=
  match session with
  | Some None => print_host (ptr_of []) 0 fromlen
  | Some (Some host) => print_host (ptr_of host) (strlen host) fromlen
  | None =>
      match u with
      | None => print_host (ptr_of []) 0 fromlen
      | Some u =>
          if ip_addresses then
            let buf := address_text (ut_addr_v6 u) fromlen in
            let len := Z.of_nat (length buf) in
            if negb (len =? 0) then
              buf ++ print_display_or_interface (ptr_of (ut_host u))
                       UT_HOSTSIZE (fromlen - len)
            else print_host (ptr_of (ut_host u)) UT_HOSTSIZE fromlen
          else print_host (ptr_of (ut_host u)) UT_HOSTSIZE fromlen
      end
  end.

End Formatter.

(** [isprint] in the "C" locale: the codes 32 to 126. *)
Definition isprint_C (c : ascii) : bool :=
  let n := Z.of_nat (nat_of_ascii c) in (32 <=? n) && (n <=? 126).

(** ** Vocabulary of the statements *)

(** The three objects that describe the chosen process. *)
Definition candidate (st : scan) : Z * Z * list ascii :=
  (pid st, pcpu st, cmdline st).

(** What [set_candidate] leaves for process [p] in a buffer that started
    as [cmdline0]. *)
Definition candidate_of (cmdline0 : list ascii) (p : pids_stack)
  : Z * Z * list ascii :=
  (EU_PID p, EU_TICS_ALL p, strncpy cmdline0 (EU_CMDLINE p) MAX_CMD_WIDTH).

(** The invariant of the loop: the candidate is the caller's, or was
    copied whole from one process already visited. *)
Definition candidate_inv (cmdline0 : list ascii) (pid0 : Z)
    (seen : list pids_stack) (st : scan) : Prop :=
  candidate st = (pid0, 0, cmdline0) \/
  exists p, In p seen /\ candidate st = candidate_of cmdline0 p.

(** The scanning loop started at offset [from] passes every byte before
    offset [upto]: each is printable and differs from [stop]. *)
Definition passes (isprint : ascii -> bool) (stop : ascii) (host : cptr)
    (from upto : nat) : Prop :=
  forall j, (from <= j < upto)%nat ->
            host j <> stop /\ isprint (host j) = true.

(** What follows a separator found at offset [i], when [budget] bytes in
    all, the separator among them, may be taken from there: [m] bytes, each
    printable and no space, and then a dash or none.  Either the separator
    and the [m] bytes use up the budget, and no dash follows; or the byte
    behind them is a space or unprintable, and a dash follows unless that
    byte is NUL. *)
Definition content_after (isprint : ascii -> bool) (host : cptr) (i : nat)
    (budget : Z) (m : nat) (dash : bool) : Prop :=
  (forall j, (i < j <= i + m)%nat ->
             isprint (host j) = true /\ host j <> " "%char)
  /\ (Z.of_nat m + 1 = budget /\ dash = false
      \/ Z.of_nat m + 1 < budget
         /\ (isprint (host (S (i + m))) = false
             \/ host (S (i + m)) = " "%char)
         /\ dash = negb (Ascii.eqb (host (S (i + m))) NUL)).

(** ** Sample data *)

Definition mk_proc (pid tgid start euid ruid tpgid pgrp tty tics : Z)
    (cmd : String.string) : pids_stack :=
  {| EU_PID := pid; EU_TGID := tgid; EU_START := start; EU_EUID := euid;
     EU_RUID := ruid; EU_TPGID := tpgid; EU_PGRP := pgrp; EU_TTY := tty;
     EU_TICS_ALL := tics; EU_CMDLINE := chars cmd |}.

(** The [cmdline] array as [showinfo] passes it, here with no bytes
    behind the terminator. *)
Definition dash_buffer : list ascii := strcpy [] (chars "-"%string).

(** A terminal with device number 34816 (pts/0), two processes on it and
    one elsewhere. *)
Definition pts0 : Z := 34816.
Definition bash_proc : pids_stack :=
  mk_proc 700 700 100 1000 1000 812 700 pts0 40 "-bash"%string.
Definition vim_proc : pids_stack :=
  mk_proc 812 812 200 1000 1000 812 812 pts0 25 "vim w.c"%string.
Definition cron_proc : pids_stack :=
  mk_proc 301 301 50 0 0 (-1) 301 0 9 "/usr/sbin/cron"%string.


(** Two processes on pts/0 whose tics add up to [2^64]: [hog_proc] is in
    the foreground, [twin_proc] is not. *)
Definition hog_proc : pids_stack :=
  mk_proc 900 900 300 1000 1000 900 900 pts0 (2 ^ 63) "yes"%string.
Definition twin_proc : pids_stack :=
  mk_proc 901 901 250 1000 1000 900 901 pts0 (2 ^ 63) "yes"%string.

(** A process on pts/0 whose start time reads 0. *)
Definition early_proc : pids_stack :=
  mk_proc 1 1 0 0 0 (-1) 1 pts0 7 "/sbin/init"%string.

(** A login process of root on pts/0, and a process whose command line
    is a single dash. *)
Definition login_proc : pids_stack :=
  mk_proc 650 650 300 0 0 812 650 pts0 12 "login -- alice"%string.
Definition dash_proc : pids_stack :=
  mk_proc 813 813 200 1000 1000 813 813 pts0 5 "-"%string.

(** A utmp entry of an ssh login with a forwarded X display, and stand-ins
    for the header macro and for [inet_ntop] that know this one address. *)
Definition ssh_entry : utmp_t :=
  {| ut_host := chars "192.168.1.7:10.0"%string ++ repeat NUL 240;
     ut_addr_v6 := (117549248, 0, 0, 0) |}.
Definition never_v4mapped (a : Z * Z * Z * Z) : bool := false.
Definition ntop4_sample (a size : Z) : option (list ascii) :=
  let text := chars "192.168.1.7"%string in
  if (a =? 117549248) && (Z.of_nat (length text) <? size) then Some text
  else None.
Definition ntop6_none (a : Z * Z * Z * Z) (size : Z) : option (list ascii) :=
  None.

(** The [ut_host] of a login from an X display, and of one from an IPv6
    link-local address. *)
Definition x11_host : list ascii := chars "x:0"%string ++ repeat NUL 253.
Definition scoped_host : list ascii :=
  chars "fe80::1%eth0"%string ++ repeat NUL 244.

(** A host field with a space behind the display. *)
Definition spaced_host : list ascii :=
  chars "h:0 x"%string ++ repeat NUL 251.

(** A utmp entry whose address words are zero and whose host is a name
    followed by a display. *)
Definition named_entry : utmp_t :=
  {| ut_host := chars "myhost:5.0"%string ++ repeat NUL 246;
     ut_addr_v6 := (0, 0, 0, 0) |}.

(** ** Vocabulary for the printing routines *)

(** The first [k] bytes behind a pointer. *)
Definition first_bytes (host : cptr) (k : nat) : list ascii :=
  map host (seq 0 k).

(** A byte that the copying loops write as it is: printable, not a space
    and not NUL. *)
Definition plain_byte (isprint : ascii -> bool) (c : ascii) : Prop :=
  c <> NUL /\ isprint c = true /\ c <> " "%char.

(** A character that may appear in the FROM column: a printable byte, the
    dash or the padding space. *)
Definition column_char (isprint : ascii -> bool) (c : ascii) : Prop :=
  c = "-"%char \/ c = " "%char \/ isprint c = true.

(** A host field with a byte that no locale prints in its middle. *)
Definition garbled_host : list ascii :=
  chars "ab"%string ++ ["007"%char] ++ chars "cd"%string ++ repeat NUL 251.

(** ** Vocabulary for the scan *)

(** A process that [find_best_proc] looks at twice: the login process or
    a process on the terminal. *)
Definition concerns (line ut_pid : Z) (p : pids_stack) : bool :=
  (EU_TGID p =? ut_pid) || (EU_TTY p =? line).

(** A process that passes the tty test and the first two parts of the
    foreground test: on the terminal, of the user (or any user with
    [ignoreuser]), and in the foreground process group of its tty. *)
Definition eligible (ignoreuser : bool) (uid line : Z) (p : pids_stack)
  : bool :=
  (EU_TTY p =? line)
  && (ignoreuser || (uid =? EU_EUID p) || (uid =? EU_RUID p))
  && (EU_PGRP p =? EU_TPGID p).

(** ** [printf] conversions used by [w] *)

Definition digit (n : Z) : ascii := ascii_of_nat (48 + Z.to_nat n).

(** The decimal digits of [n >= 0], most significant first; [rounds]
    bounds the number of digits. *)
Fixpoint dec_digits (rounds : nat) (n : Z) : list ascii :=
  match rounds with
  | O => []
  | S r =>
      if n <? 10 then [digit n]
      else dec_digits r (n / 10) ++ [digit (n mod 10)]
  end.

(** A number below [2^k] has at most [k] decimal digits. *)
Definition decimal (n : Z) : list ascii :=
  dec_digits (S (Z.to_nat (Z.log2 n))) n.

(** A field of minimum width [w], filled on the left with [fill]. *)
Definition pad_left (fill : ascii) (w : nat) (text : list ascii) : list ascii :=
  repeat fill (w - length text) ++ text.

(** ["%2llu"] and ["%02u"] for a value of the unsigned type, ["%d"] for
    an [int], and ["%.*s"] with precision [prec] (a negative precision
    counts as none). *)
Definition fmt_2llu (n : Z) : list ascii := pad_left " " 2 (decimal n).
Definition fmt_02u (n : Z) : list ascii := pad_left "0" 2 (decimal n).
Definition fmt_d (n : Z) : list ascii :=
  if n <? 0 then "-"%char :: decimal (- n) else decimal n.
Definition fmt_precision_s (prec : Z) (s : list ascii) : list ascii :=
  if prec <? 0 then cstr s else firstn (Z.to_nat prec) (cstr s).

Definition UINT_RANGE : Z := 2 ^ 32.

(** ** [print_time_ival7]

    The messages are the untranslated ones.  [t] is the [time_t] value,
    [centi_sec] the [int] that ["%02u"] reads as an [unsigned]. *)
Definition print_time_ival7 (oldstyle : bool) (t centi_sec : Z)
  : list ascii :=
  if t <? 0 then chars "   ?   "%string
  else if oldstyle then
    if t >=? 48 * 60 * 60 then
      " "%char :: fmt_2llu (t / (24 * 60 * 60)) ++ chars "days"%string
    else if t >=? 60 * 60 then
      " "%char :: fmt_2llu (t / (60 * 60)) ++ ":"%char
        :: fmt_02u ((t / 60) mod 60) ++ [" "%char]
    else if t >? 60 then
      " "%char :: fmt_2llu (t / 60) ++ ":"%char
        :: fmt_02u ((t mod UINT_RANGE) mod 60) ++ ["m"%char]
    else chars "       "%string
  else
    if t >=? 48 * 60 * 60 then
      " "%char :: fmt_2llu (t / (24 * 60 * 60)) ++ chars "days"%string
    else if t >=? 60 * 60 then
      " "%char :: fmt_2llu (t / (60 * 60)) ++ ":"%char
        :: fmt_02u ((t / 60) mod 60) ++ ["m"%char]
    else if t >? 60 then
      " "%char :: fmt_2llu (t / 60) ++ ":"%char
        :: fmt_02u ((t mod UINT_RANGE) mod 60) ++ [" "%char]
    else
      " "%char :: fmt_2llu t ++ "."%char
        :: fmt_02u (centi_sec mod UINT_RANGE) ++ ["s"%char].

(** ** [get_tty_device]

    [stat_t] keeps what the function reads of a [struct stat]: whether
    [(st_mode & S_IFMT) == S_IFCHR], and [st_rdev].  The file system is a
    function from path names to the outcome of [stat], [None] for a
    failed call. *)
Record stat_t : Type := { st_is_chr : bool; st_rdev : Z }.

(** Conversion of a [dev_t] to the [int] that the function returns. *)
Definition int_of_dev (r : Z) : Z := (r + 2 ^ 31) mod 2 ^ 32 - 2 ^ 31.

Definition dev_paths : list (list ascii) :=
  [chars "/dev/"%string; chars "/dev/tty"%string; chars "/dev/pts/"%string].

(** [snprintf(buf, 32, "<prefix>%s", name)]: at most 31 bytes are kept. *)
Definition snprintf_32 (prefix name : list ascii) : list ascii :=
  firstn 31 (prefix ++ cstr name).

(** The [for] loop over [dev_paths]. *)
Fixpoint try_dev_paths (stat : list ascii -> option stat_t)
    (name : list ascii) (paths : list (list ascii)) : Z :=
  match paths with
  | [] => -1
  | prefix :: rest =>
      match stat (snprintf_32 prefix name) with
      | Some st =>
          if st_is_chr st then int_of_dev (st_rdev st)
          else try_dev_paths stat name rest
      | None => try_dev_paths stat name rest
      end
  end.

Definition get_tty_device (stat : list ascii -> option stat_t)
    (name : list ascii) : Z :=
  match
    (if Ascii.eqb (nth 0 name NUL) "/" then stat (cstr name) else None)
  with
  | Some st => int_of_dev (st_rdev st)
  | None => try_dev_paths stat name dev_paths
  end.

(** ** [showinfo]: the tty name

    The loop that copies [u->ut_line] behind ["/dev/"], putting NUL for
    every byte that is neither alphanumeric nor a slash.  The result is
    the array from [tty + 5] on: [UT_LINESIZE] bytes and the NUL that the
    initializer left at the end. *)
Definition tty_byte (isalnum : ascii -> bool) (c : ascii) : bool :=
  isalnum c || Ascii.eqb c "/".

Definition clean_tty (isalnum : ascii -> bool) (UT_LINESIZE : nat)
    (ut_line : cptr) : list ascii :=
  map (fun i => if tty_byte isalnum (ut_line i) then ut_line i else NUL)
      (seq 0 UT_LINESIZE)
  ++ [NUL].

(** ** [showinfo]: the WHAT column *)

(** Output of [printf(" %d/%d", ut_pid, best_pid)]. *)
Definition pids_text (ut_pid best_pid : Z) : list ascii :=
  " "%char :: fmt_d ut_pid ++ "/"%char :: fmt_d best_pid.

Definition newline : ascii := "010"%char.

Definition print_what (pids : bool) (ut_pid best_pid maxcmd : Z)
    (cmdline : list ascii) : list ascii :=
  let (out, maxcmd) :=
    if pids then
      let pids_length := Z.of_nat (length (pids_text ut_pid best_pid)) in
      (pids_text ut_pid best_pid,
       if pids_length >? maxcmd then 0
       else if pids_length >? 0 then maxcmd - pids_length
       else maxcmd)
    else ([], maxcmd) in
  out ++ " "%char :: fmt_precision_s maxcmd cmdline ++ [newline].

(** ** [main]: the widths *)

Definition MIN_CMD_WIDTH : Z := 7.

Definition CLAMP_CMD_WIDTH (cw : Z) : Z :=
  let cw := if cw <? MIN_CMD_WIDTH then MIN_CMD_WIDTH else cw in
  if cw >? Z.of_nat MAX_CMD_WIDTH then Z.of_nat MAX_CMD_WIDTH else cw.

(** [env] is [None] when [getenv("PROCPS_USERLEN")] is NULL and the value
    of [atoi] otherwise. *)
Definition main_userlen (UT_NAMESIZE : Z) (env : option Z) : Z :=
  match env with
  | None => 8
  | Some userlen =>
      if (userlen <? 8) || (UT_NAMESIZE <? userlen) then 8 else userlen
  end.

Definition main_fromlen (UT_HOSTSIZE : Z) (env : option Z) : Z :=
  match env with
  | None => 16
  | Some fromlen =>
      if (fromlen <? 8) || (UT_HOSTSIZE <? fromlen) then 16 else fromlen
  end.

(** [ws_col] is [None] when the [ioctl] fails and the column count of the
    window otherwise; [columns] is [atoi] of [COLUMNS], [None] when the
    variable is unset. *)
Definition main_maxcmd (ws_col columns : option Z) (userlen fromlen : Z)
    (from longform : bool) : Z :=
  let maxcmd :=
    match ws_col with
    | Some c =>
        if c >? 0 then c
        else match columns with
             | Some v => v
             | None => Z.of_nat MAX_CMD_WIDTH
             end
    | None =>
        match columns with
        | Some v => v
        | None => Z.of_nat MAX_CMD_WIDTH
        end
    end in
  let maxcmd := CLAMP_CMD_WIDTH maxcmd in
  let maxcmd :=
    maxcmd - (21 + userlen + (if from then fromlen else 0)
              + (if longform then 20 else 0)) in
  CLAMP_CMD_WIDTH maxcmd.

(** [isalnum] in the "C" locale. *)
Definition isalnum_C (c : ascii) : bool :=
  let n := Z.of_nat (nat_of_ascii c) in
  ((48 <=? n) && (n <=? 57)) || ((65 <=? n) && (n <=? 90))
  || ((97 <=? n) && (n <=? 122)).

(** A file system with the pseudo terminal 0 and the first console. *)
Definition sample_stat (path : list ascii) : option stat_t :=
  if list_eq_dec ascii_dec path (chars "/dev/pts/0"%string) then
    Some {| st_is_chr := true; st_rdev := 34816 |}
  else if list_eq_dec ascii_dec path (chars "/dev/tty1"%string) then
    Some {| st_is_chr := true; st_rdev := 1025 |}
  else if list_eq_dec ascii_dec path (chars "/dev/pts"%string) then
    Some {| st_is_chr := false; st_rdev := 0 |}
  else None.

(** No character device at the path that [prefix] and [name] make. *)
Definition no_chr_device (stat : list ascii -> option stat_t)
    (name prefix : list ascii) : Prop :=
  match stat (snprintf_32 prefix name) with
  | Some st => st_is_chr st = false
  | None => True
  end.

(** The name is not tried as an absolute path, or that [stat] fails. *)
Definition not_absolute (stat : list ascii -> option stat_t)
    (name : list ascii) : Prop :=
  nth 0 name NUL <> "/"%char \/ stat (cstr name) = None.

(** ** Properties of the C string operations *)

Lemma cstr_no_NUL (a : list ascii) : ~ In NUL (cstr a).
Proof.
  induction a as [|c r IH]; simpl; [tauto|].
  destruct (Ascii.eqb c NUL) eqn:E; simpl; [tauto|].
  intros [H|H]; [|tauto]. subst c. now rewrite Ascii.eqb_refl in E.
Qed.

Lemma firstn_fill_length (l : list ascii) (n : nat) :
  length (firstn n (l ++ repeat NUL n)) = n.
Proof.
  rewrite length_firstn, length_app, repeat_length. lia.
Qed.

Lemma skipn_strncpy (dst src : list ascii) (n : nat) :
  skipn n (strncpy dst src n) = skipn n dst.
Proof.
  unfold strncpy. rewrite skipn_app, firstn_fill_length, Nat.sub_diag.
  rewrite skipn_all2 by (rewrite firstn_fill_length; lia). reflexivity.
Qed.

(** A later [strncpy] of the same size erases what an earlier one wrote. *)
Lemma strncpy_overwrite (dst a b : list ascii) (n : nat) :
  strncpy (strncpy dst a n) b n = strncpy dst b n.
Proof.
  unfold strncpy at 1. rewrite skipn_strncpy. reflexivity.
Qed.

Lemma MAX_CMD_WIDTH_eq : MAX_CMD_WIDTH = S (S 510).
Proof. reflexivity. Qed.

(** After [strncpy(cmdline, s, MAX_CMD_WIDTH)] the placeholder test
    succeeds exactly when [s] is the string ["-"]. *)
Lemma is_placeholder_strncpy (dst s : list ascii) :
  is_placeholder (strncpy dst s MAX_CMD_WIDTH) = true <-> cstr s = ["-"%char].
Proof.
  rewrite MAX_CMD_WIDTH_eq. unfold is_placeholder, strncpy.
  pose proof (cstr_no_NUL s) as HN.
  destruct (cstr s) as [|c [|c' r]]; cbn [app repeat firstn nth].
  - cbn. split; discriminate.
  - rewrite Ascii.eqb_refl, andb_true_r, Ascii.eqb_eq.
    split; [intros ->; reflexivity | intros [= ->]; reflexivity].
  - split; [|discriminate]. rewrite andb_true_iff, !Ascii.eqb_eq.
    intros [_ ->]. exfalso. apply HN. right. left. reflexivity.
Qed.

Lemma is_placeholder_strcpy_dash (garbage : list ascii) :
  is_placeholder (strcpy garbage (chars "-"%string)) = true.
Proof. reflexivity. Qed.

(** ** Properties of the scan *)


(** *** The blocks of one iteration

    Each of the three blocks either runs [set_candidate] for the process
    at hand or leaves the candidate and [best_time] alone; the facts
    below say which, and what else a block touches. *)

Section StepFacts.

Variable ignoreuser : bool.
Variable uid : Z.
Variable line : Z.
Variable ut_pid : Z.

Lemma leader_step_frame (st : scan) (p : pids_stack) :
  jcpu (leader_step ut_pid st p) = jcpu st
  /\ secondbest_time (leader_step ut_pid st p) = secondbest_time st
  /\ found_utpid (leader_step ut_pid st p) =
     (if EU_TGID p =? ut_pid then 1 else found_utpid st).
Proof.
  unfold leader_step. destruct (EU_TGID p =? ut_pid); [|repeat split].
  cbn [set_found_utpid best_time].
  destruct (best_time st =? 0); repeat split.
Qed.

Lemma leader_step_writes (st : scan) (p : pids_stack) :
  leader_writes ut_pid st p = true ->
  best_time st = 0
  /\ candidate (leader_step ut_pid st p) = candidate_of (cmdline st) p
  /\ best_time (leader_step ut_pid st p) = EU_START p.
Proof.
  unfold leader_writes, leader_step. intros H.
  apply andb_true_iff in H. destruct H as [Hl Hb]. rewrite Hl.
  cbn [set_found_utpid best_time]. rewrite Hb. apply Z.eqb_eq in Hb.
  split; [exact Hb | split; reflexivity].
Qed.

Lemma leader_step_keeps (st : scan) (p : pids_stack) :
  leader_writes ut_pid st p = false ->
  candidate (leader_step ut_pid st p) = candidate st
  /\ best_time (leader_step ut_pid st p) = best_time st.
Proof.
  unfold leader_writes, leader_step. intros H.
  destruct (EU_TGID p =? ut_pid); [|split; reflexivity].
  cbn [andb set_found_utpid best_time] in *. rewrite H. split; reflexivity.
Qed.

Lemma add_jcpu_frame (st : scan) (p : pids_stack) :
  candidate (add_jcpu st p) = candidate st
  /\ best_time (add_jcpu st p) = best_time st
  /\ secondbest_time (add_jcpu st p) = secondbest_time st
  /\ found_utpid (add_jcpu st p) = found_utpid st
  /\ jcpu (add_jcpu st p) = (jcpu st + EU_TICS_ALL p) mod ULLONG_RANGE.
Proof. repeat split. Qed.

Lemma interim_step_frame (st : scan) (p : pids_stack) :
  jcpu (interim_step st p) = jcpu st
  /\ found_utpid (interim_step st p) = found_utpid st
  /\ best_time (interim_step st p) = best_time st.
Proof.
  unfold interim_step. destruct (interim_taken st p); [|repeat split].
  cbn [set_secondbest_time cmdline].
  destruct (is_placeholder (cmdline st)); repeat split.
Qed.

Lemma interim_step_writes (st : scan) (p : pids_stack) :
  interim_writes st p = true ->
  candidate (interim_step st p) = candidate_of (cmdline st) p.
Proof.
  unfold interim_writes, interim_step. intros H.
  apply andb_true_iff in H. destruct H as [Ht Hp]. rewrite Ht.
  cbn [set_secondbest_time cmdline]. rewrite Hp. reflexivity.
Qed.

Lemma interim_step_keeps (st : scan) (p : pids_stack) :
  interim_writes st p = false ->
  candidate (interim_step st p) = candidate st.
Proof.
  unfold interim_writes, interim_step. intros H.
  destruct (interim_taken st p); [|reflexivity].
  cbn [andb set_secondbest_time cmdline] in *. rewrite H. reflexivity.
Qed.

Lemma filter_step_frame (st : scan) (p : pids_stack) :
  jcpu (filter_step ignoreuser uid st p) = jcpu st
  /\ found_utpid (filter_step ignoreuser uid st p) = found_utpid st
  /\ secondbest_time (filter_step ignoreuser uid st p) = secondbest_time st.
Proof.
  unfold filter_step. destruct (filter_skip ignoreuser uid st p); repeat split.
Qed.

Lemma filter_step_writes (st : scan) (p : pids_stack) :
  filter_writes ignoreuser uid st p = true ->
  candidate (filter_step ignoreuser uid st p) = candidate_of (cmdline st) p
  /\ best_time (filter_step ignoreuser uid st p) = EU_START p
  /\ best_time st < EU_START p
  /\ (EU_TTY p = line -> eligible ignoreuser uid line p = true).
Proof.
  unfold filter_writes, filter_step. intros H. apply negb_true_iff in H.
  rewrite H. split; [reflexivity|]. split; [reflexivity|].
  unfold filter_skip in H. apply orb_false_iff in H. destruct H as [H Hlt].
  apply orb_false_iff in H. destruct H as [Hu Hg].
  apply Z.leb_gt in Hlt. split; [exact Hlt|].
  intros Htty. unfold eligible. apply Z.eqb_eq in Htty. rewrite Htty.
  apply negb_false_iff in Hg. rewrite Hg.
  destruct ignoreuser, (uid =? EU_EUID p), (uid =? EU_RUID p);
    try reflexivity; discriminate.
Qed.

Lemma filter_step_keeps (st : scan) (p : pids_stack) :
  filter_writes ignoreuser uid st p = false ->
  filter_step ignoreuser uid st p = st
  /\ (eligible ignoreuser uid line p = true -> EU_START p <= best_time st).
Proof.
  unfold filter_writes, filter_step. intros H. apply negb_false_iff in H.
  rewrite H. split; [reflexivity|].
  unfold eligible. intros He. unfold filter_skip in H.
  apply andb_true_iff in He. destruct He as [He Hg].
  apply andb_true_iff in He. destruct He as [_ Hu]. rewrite Hg in H.
  cbn [negb orb] in H. rewrite orb_false_r in H.
  destruct ignoreuser, (uid =? EU_EUID p), (uid =? EU_RUID p);
    try discriminate; cbn [negb andb orb] in H; apply Z.leb_le; exact H.
Qed.

(** A second [set_candidate] for the same process changes nothing. *)
Lemma candidate_of_twice (st st' : scan) (p : pids_stack) :
  candidate st' = candidate_of (cmdline st) p ->
  candidate_of (cmdline st') p = candidate_of (cmdline st) p.
Proof.
  unfold candidate, candidate_of. intros H. injection H as _ _ ->.
  now rewrite strncpy_overwrite.
Qed.

Lemma candidate_of_same (st st' : scan) (p : pids_stack) :
  candidate st' = candidate st ->
  candidate_of (cmdline st') p = candidate_of (cmdline st) p.
Proof.
  unfold candidate, candidate_of. intros H. injection H as _ _ ->.
  reflexivity.
Qed.

(** [best_time] never decreases, and after an eligible process it is at
    least that process's start time. *)
Lemma best_time_step (st : scan) (p : pids_stack) :
  0 <= best_time st -> 0 <= EU_START p ->
  best_time st <= best_time (loop_body ignoreuser uid line ut_pid st p)
  /\ (eligible ignoreuser uid line p = true ->
      EU_START p <= best_time (loop_body ignoreuser uid line ut_pid st p)).
Proof.
  intros Hb Hs. unfold loop_body.
  set (st1 := leader_step ut_pid st p).
  assert (H1 : best_time st <= best_time st1).
  { subst st1. destruct (leader_writes ut_pid st p) eqn:E.
    - destruct (leader_step_writes st p E) as (H0 & _ & ->). lia.
    - destruct (leader_step_keeps st p E) as (_ & ->). lia. }
  destruct (EU_TTY p =? line) eqn:Etty; cbn [negb].
  - set (st3 := interim_step (add_jcpu st1 p) p).
    assert (H3 : best_time st3 = best_time st1).
    { subst st3. now destruct (interim_step_frame (add_jcpu st1 p) p)
        as (_ & _ & ->). }
    destruct (filter_writes ignoreuser uid st3 p) eqn:E.
    + destruct (filter_step_writes st3 p E) as (_ & -> & Hlt & _).
      split; [lia | intros _; lia].
    + destruct (filter_step_keeps st3 p E) as (-> & Hel).
      split; [lia | exact Hel].
  - split; [exact H1|]. unfold eligible. rewrite Etty. discriminate.
Qed.

(** One labelled iteration: nothing was written and the label stays, or
    the candidate is the process at hand and the label names the last
    block that wrote it. *)
Lemma labelled_iteration (st : scan) (p : pids_stack) (w : writer) :
  let st' := loop_body ignoreuser uid line ut_pid st p in
  let w' := last_writer ignoreuser uid line ut_pid w st p in
  (w' = w /\ candidate st' = candidate st /\ best_time st' = best_time st)
  \/ (w' = ByLeaderSeed /\ candidate st' = candidate_of (cmdline st) p
      /\ best_time st' = EU_START p)
  \/ (w' = ByInterim /\ on_line line p = true
      /\ candidate st' = candidate_of (cmdline st) p
      /\ (best_time st' = best_time st \/ best_time st' = EU_START p))
  \/ (w' = ByFilter /\ on_line line p = true
      /\ eligible ignoreuser uid line p = true
      /\ candidate st' = candidate_of (cmdline st) p
      /\ best_time st' = EU_START p).
Proof.
  unfold last_writer, loop_body, on_line.
  set (st1 := leader_step ut_pid st p).
  assert (H1 : candidate_of (cmdline st1) p = candidate_of (cmdline st) p
               /\ (leader_writes ut_pid st p = true ->
                   candidate st1 = candidate_of (cmdline st) p
                   /\ best_time st1 = EU_START p)
               /\ (leader_writes ut_pid st p = false ->
                   candidate st1 = candidate st
                   /\ best_time st1 = best_time st)).
  { subst st1. destruct (leader_writes ut_pid st p) eqn:E.
    - destruct (leader_step_writes st p E) as (_ & Hc & Hb).
      split; [now apply candidate_of_twice|]. split; [auto | discriminate].
    - destruct (leader_step_keeps st p E) as (Hc & Hb).
      split; [now apply candidate_of_same|]. split; [discriminate | auto]. }
  destruct H1 as (Hof1 & Hw1 & Hkeep1).
  destruct (EU_TTY p =? line) eqn:Etty; cbn [negb].
  - set (st2 := add_jcpu st1 p).
    set (st3 := interim_step st2 p).
    assert (H3 : candidate_of (cmdline st3) p = candidate_of (cmdline st) p
                 /\ (interim_writes st2 p = true ->
                     candidate st3 = candidate_of (cmdline st) p)
                 /\ (interim_writes st2 p = false ->
                     candidate st3 = candidate st1)
                 /\ best_time st3 = best_time st1).
    { subst st3. destruct (interim_step_frame st2 p) as (_ & _ & Hb).
      destruct (interim_writes st2 p) eqn:E.
      - pose proof (interim_step_writes st2 p E) as Hc.
        rewrite (candidate_of_twice st2 _ p Hc).
        split; [exact Hof1|]. split; [|split; [discriminate | exact Hb]].
        intros _. rewrite Hc. exact Hof1.
      - pose proof (interim_step_keeps st2 p E) as Hc.
        rewrite (candidate_of_same st2 _ p Hc).
        split; [exact Hof1|]. split; [discriminate|].
        split; [auto | exact Hb]. }
    destruct H3 as (Hof3 & Hw3 & Hkeep3 & Hb3).
    destruct (filter_writes ignoreuser uid st3 p) eqn:Ef.
    + right. right. right.
      destruct (filter_step_writes st3 p Ef) as (Hc & Hb & _ & Hel).
      split; [reflexivity|]. split; [reflexivity|].
      split; [apply Hel, Z.eqb_eq, Etty|].
      split; [now rewrite Hc | exact Hb].
    + destruct (filter_step_keeps st3 p Ef) as (-> & _).
      destruct (interim_writes st2 p) eqn:Ei.
      { right. right. left.
        split; [reflexivity|]. split; [reflexivity|]. split; [auto|].
        rewrite Hb3. destruct (leader_writes ut_pid st p).
        - right. now apply Hw1.
        - left. now apply Hkeep1. }
      rewrite (Hkeep3 eq_refl).
      destruct (leader_writes ut_pid st p) eqn:El.
      { right. left. destruct (Hw1 eq_refl) as [Hc1 Hb1].
        split; [reflexivity|]. split; congruence. }
      left. destruct (Hkeep1 eq_refl) as [Hc1 Hb1].
      split; [reflexivity|]. split; congruence.
  - destruct (leader_writes ut_pid st p) eqn:El.
    { right. left. destruct (Hw1 eq_refl). auto. }
    left. destruct (Hkeep1 eq_refl) as [Hc1 Hb1]. auto.
Qed.

End StepFacts.

Section SelectorFacts.

Variable ignoreuser : bool.
Variable uid : Z.
Variable line : Z.
Variable ut_pid : Z.

Lemma scan_procs_cons (st : scan) (p : pids_stack) (reap : list pids_stack) :
  scan_procs ignoreuser uid line ut_pid st (p :: reap) =
  scan_procs ignoreuser uid line ut_pid
    (loop_body ignoreuser uid line ut_pid st p) reap.
Proof. reflexivity. Qed.

Lemma scan_procs_app (st : scan) (l1 l2 : list pids_stack) :
  scan_procs ignoreuser uid line ut_pid st (l1 ++ l2) =
  scan_procs ignoreuser uid line ut_pid
    (scan_procs ignoreuser uid line ut_pid st l1) l2.
Proof. apply fold_left_app. Qed.

Lemma jcpu_loop_body (st : scan) (p : pids_stack) :
  jcpu (loop_body ignoreuser uid line ut_pid st p) =
  if on_line line p then (jcpu st + EU_TICS_ALL p) mod ULLONG_RANGE
  else jcpu st.
Proof.
  unfold loop_body, on_line.
  destruct (leader_step_frame ut_pid st p) as (Hj & _ & _).
  destruct (EU_TTY p =? line); cbn [negb]; [|exact Hj].
  destruct (filter_step_frame ignoreuser uid
              (interim_step (add_jcpu (leader_step ut_pid st p) p) p) p)
    as (-> & _ & _).
  destruct (interim_step_frame (add_jcpu (leader_step ut_pid st p) p) p)
    as (-> & _ & _).
  destruct (add_jcpu_frame (leader_step ut_pid st p) p) as (_ & _ & _ & _ & ->).
  now rewrite Hj.
Qed.

Lemma jcpu_scan_procs (reap : list pids_stack) (st : scan) :
  jcpu st mod ULLONG_RANGE = jcpu st ->
  jcpu (scan_procs ignoreuser uid line ut_pid st reap) =
  (jcpu st + tty_tics line reap) mod ULLONG_RANGE.
Proof.
  revert st. induction reap as [|p reap IH]; intros st Hst.
  - cbn. rewrite Z.add_0_r. symmetry. exact Hst.
  - rewrite scan_procs_cons. unfold tty_tics. cbn [filter].
    rewrite IH; rewrite jcpu_loop_body; destruct (on_line line p).
    + cbn [map fold_right]. fold (tty_tics line reap).
      rewrite Zplus_mod_idemp_l. f_equal. lia.
    + reflexivity.
    + apply Z.mod_mod. unfold ULLONG_RANGE. lia.
    + exact Hst.
Qed.

Lemma tty_tics_nonneg (reap : list pids_stack) :
  Forall ull_items_ok reap -> 0 <= tty_tics line reap.
Proof.
  unfold tty_tics. induction 1 as [|p reap Hp _ IH]; cbn; [lia|].
  destruct (on_line line p); cbn; [|exact IH].
  destruct Hp as [_ Hp]. lia.
Qed.

Lemma found_utpid_loop_body (st : scan) (p : pids_stack) :
  found_utpid (loop_body ignoreuser uid line ut_pid st p) =
  if EU_TGID p =? ut_pid then 1 else found_utpid st.
Proof.
  unfold loop_body.
  destruct (leader_step_frame ut_pid st p) as (_ & _ & Hf).
  destruct (EU_TTY p =? line); cbn [negb]; [|exact Hf].
  destruct (filter_step_frame ignoreuser uid
              (interim_step (add_jcpu (leader_step ut_pid st p) p) p) p)
    as (_ & -> & _).
  destruct (interim_step_frame (add_jcpu (leader_step ut_pid st p) p) p)
    as (_ & -> & _).
  exact Hf.
Qed.

Lemma found_utpid_scan_procs (reap : list pids_stack) (st : scan) :
  found_utpid (scan_procs ignoreuser uid line ut_pid st reap) <> 0 <->
  found_utpid st <> 0 \/ Exists (fun p => EU_TGID p = ut_pid) reap.
Proof.
  revert st. induction reap as [|p reap IH]; intros st.
  - cbn. rewrite Exists_nil. tauto.
  - rewrite scan_procs_cons, IH, found_utpid_loop_body, Exists_cons.
    destruct (EU_TGID p =? ut_pid) eqn:E.
    + apply Z.eqb_eq in E. split; [tauto|]. intros _. left. discriminate.
    + apply Z.eqb_neq in E. tauto.
Qed.

(** An iteration keeps the candidate or replaces all of it from the
    process at hand. *)
Lemma candidate_loop_body (st : scan) (p : pids_stack) :
  candidate (loop_body ignoreuser uid line ut_pid st p) = candidate st \/
  candidate (loop_body ignoreuser uid line ut_pid st p) =
  candidate_of (cmdline st) p.
Proof.
  destruct (labelled_iteration ignoreuser uid line ut_pid st p ByCaller)
    as [(_ & H & _) | [(_ & H & _) | [(_ & _ & H & _) | (_ & _ & _ & H & _)]]];
    auto.
Qed.

(** The bytes of [cmdline] past [MAX_CMD_WIDTH] are never written. *)
Lemma candidate_of_rebase (cmdline0 c : list ascii) (p : pids_stack) :
  skipn MAX_CMD_WIDTH c = skipn MAX_CMD_WIDTH cmdline0 ->
  candidate_of c p = candidate_of cmdline0 p.
Proof.
  intros H. unfold candidate_of, strncpy. now rewrite H.
Qed.

Lemma candidate_inv_tail (cmdline0 : list ascii) (pid0 : Z)
    (seen : list pids_stack) (st : scan) :
  candidate_inv cmdline0 pid0 seen st ->
  skipn MAX_CMD_WIDTH (cmdline st) = skipn MAX_CMD_WIDTH cmdline0.
Proof.
  unfold candidate, candidate_of.
  intros [H | (p & _ & H)]; injection H as _ _ ->;
    [reflexivity | apply skipn_strncpy].
Qed.

Lemma candidate_inv_step (cmdline0 : list ascii) (pid0 : Z)
    (seen : list pids_stack) (st : scan) (p : pids_stack) :
  candidate_inv cmdline0 pid0 seen st ->
  candidate_inv cmdline0 pid0 (seen ++ [p])
    (loop_body ignoreuser uid line ut_pid st p).
Proof.
  intros Hinv. pose proof (candidate_inv_tail _ _ _ _ Hinv) as Htail.
  unfold candidate_inv.
  destruct (candidate_loop_body st p) as [E | E]; rewrite E.
  - destruct Hinv as [H | (q & Hq & H)]; [left; exact H|].
    right. exists q. split; [apply in_or_app; now left | exact H].
  - right. exists p. split; [apply in_or_app; right; now left|].
    apply candidate_of_rebase, Htail.
Qed.

Lemma candidate_inv_run (cmdline0 : list ascii) (pid0 : Z)
    (reap seen : list pids_stack) (st : scan) :
  candidate_inv cmdline0 pid0 seen st ->
  candidate_inv cmdline0 pid0 (seen ++ reap)
    (scan_procs ignoreuser uid line ut_pid st reap).
Proof.
  revert seen st. induction reap as [|p reap IH]; intros seen st H.
  - now rewrite app_nil_r.
  - rewrite scan_procs_cons.
    replace (seen ++ p :: reap) with ((seen ++ [p]) ++ reap)
      by (now rewrite <- app_assoc).
    apply IH, candidate_inv_step, H.
Qed.

End SelectorFacts.

(** ** The selector: results about [find_best_proc] *)

Lemma scan_init_jcpu_reduced (cmdline0 : list ascii) (pid0 : Z) :
  jcpu (scan_init cmdline0 pid0) mod ULLONG_RANGE =
  jcpu (scan_init cmdline0 pid0).
Proof. reflexivity. Qed.

(** [find_best_proc] is the scan for one value of [uid], unless the user
    lookup failed. *)
Lemma find_best_proc_scans (ignoreuser : bool) (lookup : option Z)
    (line ut_pid : Z) (cmdline0 : list ascii) (pid0 : Z)
    (reap : list pids_stack) :
  ignoreuser = true \/ lookup <> None ->
  exists uid,
    find_best_proc ignoreuser lookup line ut_pid cmdline0 pid0 reap =
    scan_procs ignoreuser uid line ut_pid (scan_init cmdline0 pid0) reap.
Proof.
  unfold find_best_proc. intros [-> | H]; cbn [negb].
  - eexists; reflexivity.
  - destruct ignoreuser; cbn [negb]; [eexists; reflexivity|].
    destruct lookup as [u|]; [eexists; reflexivity | congruence].
Qed.

(** *** Runs on sample tables *)

(** The login shell alone on its terminal: found, chosen, and its tics
    are the session's. *)
Example lone_login_shell :
  let r := find_best_proc false (Some 1000) pts0 700 dash_buffer (-1)
             [bash_proc] in
  found_utpid r = 1 /\ candidate r = candidate_of dash_buffer bash_proc
  /\ jcpu r = 40.
Proof. vm_compute. repeat split. Qed.

(** No process has the login pid: the return value is 0, whatever the
    scan has picked and summed. *)
Example stale_entry :
  let r := find_best_proc false (Some 1000) pts0 4242 dash_buffer (-1)
             [bash_proc; vim_proc; cron_proc] in
  found_utpid r = 0 /\ candidate r = candidate_of dash_buffer vim_proc
  /\ jcpu r = 65.
Proof. vm_compute. repeat split. Qed.

(** A failed user lookup returns before the table is read. *)
Example unknown_user :
  find_best_proc false None pts0 700 dash_buffer (-1)
    [bash_proc; vim_proc; cron_proc] = scan_init dash_buffer (-1).
Proof. reflexivity. Qed.

(** C1 (as amended): when the user lookup succeeded or the user filter is
    off, the [jcpu] that [find_best_proc] returns is the sum of the cpu
    tics of exactly the processes whose tty equals [line], reduced modulo
    [2^64]; whatever the uids, the flag [ignoreuser], the login pid and
    the foreground test.  When the items are [unsigned long long] values
    and that sum is below [2^64], [jcpu] is the sum itself. *)
Theorem jcpu_is_tty_sum_modulo (ignoreuser : bool) (lookup : option Z)
    (line ut_pid : Z) (cmdline0 : list ascii) (pid0 : Z)
    (reap : list pids_stack) :
  ignoreuser = true \/ lookup <> None ->
  jcpu (find_best_proc ignoreuser lookup line ut_pid cmdline0 pid0 reap) =
    tty_tics line reap mod ULLONG_RANGE
  /\ (Forall ull_items_ok reap -> tty_tics line reap < ULLONG_RANGE ->
      jcpu (find_best_proc ignoreuser lookup line ut_pid cmdline0 pid0 reap) =
        tty_tics line reap).
Proof.
  intros H. destruct (find_best_proc_scans _ _ line ut_pid cmdline0 pid0 reap H)
    as [uid ->].
  rewrite jcpu_scan_procs by apply scan_init_jcpu_reduced.
  cbn [scan_init jcpu Z.add]. split; [reflexivity|].
  intros Hok Hlt. apply Z.mod_small. split; [|exact Hlt].
  now apply tty_tics_nonneg.
Qed.

Lemma sample_items_ok :
  Forall ull_items_ok [bash_proc; vim_proc; cron_proc].
Proof.
  repeat constructor; cbn; unfold ULLONG_RANGE; lia.
Qed.

Lemma jcpu_is_tty_sum_modulo_witness :
  jcpu (find_best_proc false (Some 1000) pts0 700 dash_buffer (-1)
          [bash_proc; vim_proc; cron_proc]) = 65 mod ULLONG_RANGE
  /\ jcpu (find_best_proc false (Some 1000) pts0 700 dash_buffer (-1)
          [bash_proc; vim_proc; cron_proc]) = 65.
Proof.
  destruct (jcpu_is_tty_sum_modulo false (Some 1000) pts0 700 dash_buffer (-1)
              [bash_proc; vim_proc; cron_proc]) as [Hmod Hsum].
  - right. discriminate.
  - split.
    + exact Hmod.
    + apply Hsum; [exact sample_items_ok | vm_compute; reflexivity].
Defined.

(** C1 (as stated) fails when the accumulator wraps: two processes on the
    terminal with [2^63] tics each leave [jcpu] at 0, not at their sum. *)
Lemma jcpu_wraps_counterexample :
  Forall ull_items_ok [hog_proc; twin_proc] /\
  tty_tics pts0 [hog_proc; twin_proc] = 2 ^ 64 /\
  jcpu (find_best_proc false (Some 1000) pts0 900 dash_buffer (-1)
          [hog_proc; twin_proc]) = 0 /\
  jcpu (find_best_proc false (Some 1000) pts0 900 dash_buffer (-1)
          [hog_proc; twin_proc]) <> tty_tics pts0 [hog_proc; twin_proc].
Proof.
  split; [repeat constructor; cbn; unfold ULLONG_RANGE; lia|].
  split; [reflexivity|]. split; [vm_compute; reflexivity|].
  vm_compute. discriminate.
Qed.

(** C3: when the user lookup succeeded or the user filter is off,
    [find_best_proc] returns a nonzero [found_utpid] exactly when some
    process of the table has [ut_pid] as its TGID; and when it returns 0,
    [showinfo] prints nothing for the entry. *)
Theorem leader_found_iff_present (report_line : scan -> list ascii)
    (ignoreuser : bool) (lookup : option Z) (line ut_pid : Z)
    (garbage : list ascii) (reap : list pids_stack) :
  ignoreuser = true \/ lookup <> None ->
  (forall cmdline0 pid0,
      found_utpid
        (find_best_proc ignoreuser lookup line ut_pid cmdline0 pid0 reap) <> 0
      <-> Exists (fun p => EU_TGID p = ut_pid) reap)
  /\ (~ Exists (fun p => EU_TGID p = ut_pid) reap ->
      showinfo report_line ignoreuser lookup line ut_pid garbage reap = []).
Proof.
  intros H.
  assert (Hiff : forall cmdline0 pid0,
      found_utpid
        (find_best_proc ignoreuser lookup line ut_pid cmdline0 pid0 reap) <> 0
      <-> Exists (fun p => EU_TGID p = ut_pid) reap).
  { intros cmdline0 pid0.
    destruct (find_best_proc_scans _ _ line ut_pid cmdline0 pid0 reap H)
      as [uid ->].
    rewrite found_utpid_scan_procs. cbn [scan_init found_utpid].
    split; [intros [F|E]; [congruence | exact E] | intros E; right; exact E]. }
  split; [exact Hiff|].
  intros Habsent. unfold showinfo.
  destruct (Z.eqb_spec
    (found_utpid (find_best_proc ignoreuser lookup line ut_pid
                    (strcpy garbage (chars "-"%string)) (-1) reap)) 0)
    as [_|Hne]; [reflexivity|].
  apply Hiff in Hne. contradiction.
Qed.

Lemma leader_found_iff_present_witness :
  found_utpid (find_best_proc false (Some 1000) pts0 700 dash_buffer (-1)
                 [bash_proc; vim_proc; cron_proc]) <> 0
  /\ showinfo (fun r => cmdline r) false (Some 1000) pts0 4242 []
       [bash_proc; vim_proc; cron_proc] = [].
Proof.
  destruct (leader_found_iff_present (fun r => cmdline r) false (Some 1000)
              pts0 700 [] [bash_proc; vim_proc; cron_proc]) as [Hiff _].
  { right. discriminate. }
  destruct (leader_found_iff_present (fun r => cmdline r) false (Some 1000)
              pts0 4242 [] [bash_proc; vim_proc; cron_proc]) as [_ Hstale].
  { right. discriminate. }
  split.
  - apply Hiff. apply Exists_cons_hd. reflexivity.
  - apply Hstale. intros E.
    repeat (apply Exists_cons in E; destruct E as [E|E]; [discriminate E|]).
    apply Exists_nil in E. exact E.
Defined.

(** C10: in the state reached after any number of iterations, and in the
    result of [find_best_proc], the triple ([pid], [pcpu], [cmdline]) is
    either the initial one (the caller's pid and buffer, zero tics) or was
    written whole from one process of the table already visited: its PID,
    its tics and the [strncpy] of its command line. *)
Theorem candidate_from_one_process (ignoreuser : bool) (lookup : option Z)
    (uid line ut_pid : Z) (cmdline0 : list ascii) (pid0 : Z)
    (seen rest : list pids_stack) :
  let st0 := scan_init cmdline0 pid0 in
  scan_procs ignoreuser uid line ut_pid st0 (seen ++ rest) =
    scan_procs ignoreuser uid line ut_pid
      (scan_procs ignoreuser uid line ut_pid st0 seen) rest
  /\ candidate_inv cmdline0 pid0 seen
       (scan_procs ignoreuser uid line ut_pid st0 seen)
  /\ candidate_inv cmdline0 pid0 (seen ++ rest)
       (find_best_proc ignoreuser lookup line ut_pid cmdline0 pid0
          (seen ++ rest)).
Proof.
  assert (Hrun : forall ig u l,
    candidate_inv cmdline0 pid0 l
      (scan_procs ig u line ut_pid (scan_init cmdline0 pid0) l)).
  { intros ig u l.
    apply (candidate_inv_run ig u line ut_pid cmdline0 pid0 l []).
    left. reflexivity. }
  split; [apply scan_procs_app|]. split; [apply Hrun|].
  unfold find_best_proc. destruct (negb ignoreuser); [|apply Hrun].
  destruct lookup; [apply Hrun | left; reflexivity].
Qed.

(** *** The label follows the program *)

Lemma labelled_scan_fst (ignoreuser : bool) (uid line ut_pid : Z)
    (reap : list pids_stack) (st : scan) (w : writer) :
  fst (fold_left (labelled_body ignoreuser uid line ut_pid) reap (st, w)) =
  scan_procs ignoreuser uid line ut_pid st reap.
Proof.
  revert st w. induction reap as [|p reap IH]; intros st w; [reflexivity|].
  cbn [fold_left scan_procs]. unfold labelled_body at 2. cbn [fst snd].
  apply IH.
Qed.

(** One labelled iteration: either nothing was written and the label
    stays, or the candidate is the process at hand and the label names a
    block; the blocks past the tty test only run for a process on the
    terminal. *)
Lemma last_writer_cases (ignoreuser : bool) (uid line ut_pid : Z)
    (st : scan) (p : pids_stack) (w : writer) :
  let st' := loop_body ignoreuser uid line ut_pid st p in
  let w' := last_writer ignoreuser uid line ut_pid w st p in
  (w' = w /\ candidate st' = candidate st)
  \/ (w' = ByLeaderSeed /\ candidate st' = candidate_of (cmdline st) p)
  \/ ((w' = ByInterim \/ w' = ByFilter) /\ on_line line p = true
      /\ candidate st' = candidate_of (cmdline st) p).
Proof.
  intros st' w'. subst st' w'.
  destruct (labelled_iteration ignoreuser uid line ut_pid st p w)
    as [(Hw & H & _)
       | [(Hw & H & _) | [(Hw & Hon & H & _) | (Hw & Hon & _ & H & _)]]];
    auto 6.
Qed.

(** A candidate written past the tty test belongs to a process on the
    terminal. *)
Lemma on_line_writer_inv (ignoreuser : bool) (uid line ut_pid : Z)
    (reap seen : list pids_stack) (st : scan) (w : writer) :
  (w = ByInterim \/ w = ByFilter ->
   exists q, In q seen /\ on_line line q = true /\ pcpu st = EU_TICS_ALL q) ->
  let sw := fold_left (labelled_body ignoreuser uid line ut_pid) reap (st, w) in
  snd sw = ByInterim \/ snd sw = ByFilter ->
  exists q, In q (seen ++ reap) /\ on_line line q = true
            /\ pcpu (fst sw) = EU_TICS_ALL q.
Proof.
  revert seen st w. induction reap as [|p reap IH]; intros seen st w Hinv.
  - cbn. rewrite app_nil_r. exact Hinv.
  - cbn [fold_left]. unfold labelled_body at 2. cbn [fst snd].
    replace (seen ++ p :: reap) with ((seen ++ [p]) ++ reap)
      by (now rewrite <- app_assoc).
    apply IH. intros Hw.
    destruct (last_writer_cases ignoreuser uid line ut_pid st p w)
      as [[Ew Ec] | [[Ew Ec] | [_ [Eon Ec]]]].
    + rewrite Ew in Hw. destruct (Hinv Hw) as (q & Hq & Hon & Hp).
      exists q. split; [apply in_or_app; now left|]. split; [exact Hon|].
      unfold candidate in Ec. injection Ec as _ -> _. exact Hp.
    + rewrite Ew in Hw. destruct Hw; discriminate.
    + exists p. split; [apply in_or_app; right; now left|].
      split; [exact Eon|].
      unfold candidate, candidate_of in Ec. injection Ec as _ -> _. reflexivity.
Qed.

Lemma tics_le_tty_tics (line : Z) (reap : list pids_stack) (q : pids_stack) :
  Forall ull_items_ok reap -> In q reap -> on_line line q = true ->
  EU_TICS_ALL q <= tty_tics line reap.
Proof.
  induction 1 as [|p reap Hp Hall IH]; intros Hin Hon; [destruct Hin|].
  pose proof (tty_tics_nonneg line reap Hall) as Hnn.
  unfold tty_tics in *. cbn [filter]. destruct Hin as [-> | Hin].
  - rewrite Hon. cbn. lia.
  - specialize (IH Hin Hon). destruct (on_line line p); cbn; [|exact IH].
    destruct Hp as [_ Hp]. lia.
Qed.

(** C5 (as amended): when the last block to write the candidate was the
    one behind the foreground test, the items are [unsigned long long]
    values and the tics of the terminal's processes sum to less than
    [2^64], the returned [jcpu] is at least the returned [pcpu]. *)
Theorem filter_candidate_within_jcpu (ignoreuser : bool) (lookup : option Z)
    (line ut_pid : Z) (cmdline0 : list ascii) (pid0 : Z)
    (reap : list pids_stack) :
  candidate_writer ignoreuser lookup line ut_pid cmdline0 pid0 reap
  = ByFilter ->
  Forall ull_items_ok reap ->
  tty_tics line reap < ULLONG_RANGE ->
  pcpu (find_best_proc ignoreuser lookup line ut_pid cmdline0 pid0 reap) <=
  jcpu (find_best_proc ignoreuser lookup line ut_pid cmdline0 pid0 reap).
Proof.
  intros Hw Hok Hlt.
  set (st0 := scan_init cmdline0 pid0).
  assert (Hgo : forall uid,
    snd (labelled_scan ignoreuser uid line ut_pid st0 reap) = ByFilter ->
    pcpu (scan_procs ignoreuser uid line ut_pid st0 reap) <=
    jcpu (scan_procs ignoreuser uid line ut_pid st0 reap)).
  { intros uid Hlab.
    destruct (on_line_writer_inv ignoreuser uid line ut_pid reap [] st0
                ByCaller) as (q & Hq & Hon & Hp).
    - intros [H|H]; discriminate.
    - right. exact Hlab.
    - rewrite labelled_scan_fst in Hp. rewrite Hp.
      rewrite jcpu_scan_procs by apply scan_init_jcpu_reduced.
      unfold st0. cbn [scan_init jcpu Z.add].
      pose proof (tty_tics_nonneg line reap Hok).
      rewrite Z.mod_small by lia.
      now apply tics_le_tty_tics. }
  unfold candidate_writer in Hw. unfold find_best_proc.
  destruct (negb ignoreuser); [|apply Hgo, Hw].
  destruct lookup; [apply Hgo, Hw | discriminate].
Qed.

Lemma filter_candidate_within_jcpu_witness :
  pcpu (find_best_proc false (Some 1000) pts0 700 dash_buffer (-1)
          [bash_proc; vim_proc; cron_proc]) <=
  jcpu (find_best_proc false (Some 1000) pts0 700 dash_buffer (-1)
          [bash_proc; vim_proc; cron_proc]).
Proof.
  apply filter_candidate_within_jcpu.
  - vm_compute. reflexivity.
  - exact sample_items_ok.
  - vm_compute. reflexivity.
Defined.

(** C5 (as stated) fails when the accumulator wraps: after the login
    shell, [hog_proc] is promoted behind the foreground test and stays the
    candidate, yet [jcpu] ends at 40, below its [2^63] tics. *)
Lemma filter_candidate_above_jcpu_counterexample :
  Forall ull_items_ok [bash_proc; hog_proc; twin_proc] /\
  candidate_writer false (Some 1000) pts0 700 dash_buffer (-1)
    [bash_proc; hog_proc; twin_proc] = ByFilter /\
  pcpu (find_best_proc false (Some 1000) pts0 700 dash_buffer (-1)
          [bash_proc; hog_proc; twin_proc]) = 2 ^ 63 /\
  jcpu (find_best_proc false (Some 1000) pts0 700 dash_buffer (-1)
          [bash_proc; hog_proc; twin_proc]) = 40 /\
  ~ (pcpu (find_best_proc false (Some 1000) pts0 700 dash_buffer (-1)
             [bash_proc; hog_proc; twin_proc]) <=
     jcpu (find_best_proc false (Some 1000) pts0 700 dash_buffer (-1)
             [bash_proc; hog_proc; twin_proc])).
Proof.
  split; [repeat constructor; cbn; unfold ULLONG_RANGE; lia|].
  split; [vm_compute; reflexivity|].
  split; [vm_compute; reflexivity|].
  split; [vm_compute; reflexivity|].
  vm_compute. intros H. apply H. reflexivity.
Qed.

Lemma interim_taken_iff (st : scan) (p : pids_stack) :
  interim_taken st p = true <->
  secondbest_time st = 0 \/ secondbest_time st < EU_START p.
Proof.
  unfold interim_taken.
  destruct (Z.eqb_spec (secondbest_time st) 0) as [E|E];
    destruct (Z.leb_spec (EU_START p) (secondbest_time st)) as [L|L];
    cbn; split; intro H; try reflexivity; try discriminate; try lia; auto.
Qed.

Lemma secondbest_time_before_interim (ut_pid : Z) (st : scan) (p : pids_stack) :
  secondbest_time (add_jcpu (leader_step ut_pid st p) p) = secondbest_time st.
Proof.
  unfold add_jcpu, leader_step, set_jcpu, set_candidate, set_best_time,
    set_found_utpid.
  destruct (EU_TGID p =? ut_pid); cbn [best_time secondbest_time];
    [destruct (best_time st =? 0)|]; reflexivity.
Qed.

(** The interim block by cases. *)
Lemma interim_step_cases (st : scan) (p : pids_stack) :
  (secondbest_time st = 0 \/ secondbest_time st < EU_START p ->
   secondbest_time (interim_step st p) = EU_START p
   /\ (is_placeholder (cmdline st) = true ->
       candidate (interim_step st p) = candidate_of (cmdline st) p)
   /\ (is_placeholder (cmdline st) = false ->
       candidate (interim_step st p) = candidate st))
  /\ (~ (secondbest_time st = 0 \/ secondbest_time st < EU_START p) ->
      interim_step st p = st)
  /\ found_utpid (interim_step st p) = found_utpid st
  /\ best_time (interim_step st p) = best_time st
  /\ jcpu (interim_step st p) = jcpu st.
Proof.
  pose proof (interim_taken_iff st p) as Htaken.
  unfold interim_step. destruct (interim_taken st p).
  - cbn [set_secondbest_time cmdline]. split.
    + intros _. destruct (is_placeholder (cmdline st)); repeat split;
        try reflexivity; intros; discriminate.
    + split.
      * intros Hn. exfalso. apply Hn, Htaken. reflexivity.
      * destruct (is_placeholder (cmdline st)); repeat split.
  - split.
    + intros H. apply Htaken in H. discriminate.
    + repeat split.
Qed.

(** C4 (as amended): for a process [p] on the terminal, the iteration is
    the leader block, the accumulation, the interim block and the
    foreground block in this order.  The interim block runs exactly when
    [secondbest_time] is still 0 or the start time of [p] is strictly
    greater than it; it then sets [secondbest_time] to that start time
    and replaces the candidate by [p] exactly when the current [cmdline]
    is the placeholder.  When it does not run, nothing changes. *)
Theorem interim_promotion_rule (ignoreuser : bool) (uid line ut_pid : Z)
    (st : scan) (p : pids_stack) :
  EU_TTY p = line ->
  let st1 := add_jcpu (leader_step ut_pid st p) p in
  let st2 := interim_step st1 p in
  loop_body ignoreuser uid line ut_pid st p = filter_step ignoreuser uid st2 p
  /\ secondbest_time st1 = secondbest_time st
  /\ (secondbest_time st1 = 0 \/ secondbest_time st1 < EU_START p ->
      secondbest_time st2 = EU_START p
      /\ (is_placeholder (cmdline st1) = true ->
          candidate st2 = candidate_of (cmdline st1) p)
      /\ (is_placeholder (cmdline st1) = false ->
          candidate st2 = candidate st1))
  /\ (~ (secondbest_time st1 = 0 \/ secondbest_time st1 < EU_START p) ->
      st2 = st1)
  /\ found_utpid st2 = found_utpid st1
  /\ best_time st2 = best_time st1
  /\ jcpu st2 = jcpu st1.
Proof.
  intros Htty st1 st2.
  split.
  { unfold loop_body. apply Z.eqb_eq in Htty. rewrite Htty. reflexivity. }
  split; [apply secondbest_time_before_interim|].
  apply interim_step_cases.
Qed.

Lemma interim_promotion_rule_witness :
  let st := scan_init dash_buffer (-1) in
  loop_body false 1000 pts0 700 st vim_proc =
  filter_step false 1000
    (interim_step (add_jcpu (leader_step 700 st vim_proc) vim_proc) vim_proc)
    vim_proc.
Proof.
  apply (interim_promotion_rule false 1000 pts0 700
           (scan_init dash_buffer (-1)) vim_proc).
  reflexivity.
Defined.

(** C4 (as stated) fails for a process whose start time is 0, met while
    [secondbest_time] is 0: its start time is not strictly greater, yet
    the interim block runs and makes it the candidate, which is also what
    [find_best_proc] returns. *)
Lemma interim_promotion_counterexample :
  let st := scan_init dash_buffer (-1) in
  EU_TTY early_proc = pts0
  /\ ~ (secondbest_time st < EU_START early_proc)
  /\ is_placeholder (cmdline st) = true
  /\ candidate (interim_step st early_proc)
     = candidate_of dash_buffer early_proc
  /\ candidate (interim_step st early_proc) <> candidate st
  /\ pid (find_best_proc false (Some 1000) pts0 700 dash_buffer (-1)
            [early_proc]) = EU_PID early_proc.
Proof.
  cbv zeta. split; [reflexivity|]. split; [cbn; lia|].
  split; [reflexivity|]. split; [vm_compute; reflexivity|].
  split; [vm_compute; discriminate | vm_compute; reflexivity].
Qed.

(** *** Scenario C *)

(** A process that the foreground test accepts on start time alone, met
    while [best_time] is 0, becomes the candidate. *)
Lemma foreground_step_first (uid line ut_pid : Z) (st : scan) (A : pids_stack) :
  best_time st = 0 ->
  EU_TTY A = line ->
  EU_EUID A = uid \/ EU_RUID A = uid ->
  EU_PGRP A = EU_TPGID A ->
  0 < EU_START A ->
  candidate (loop_body false uid line ut_pid st A) = candidate_of (cmdline st) A
  /\ best_time (loop_body false uid line ut_pid st A) = EU_START A.
Proof.
  intros Hbest Htty Huid Hpgrp Hstart.
  assert (Hel : eligible false uid line A = true).
  { unfold eligible. rewrite Hpgrp, Z.eqb_refl. apply Z.eqb_eq in Htty.
    rewrite Htty. cbn [andb orb].
    destruct Huid as [<- | <-]; rewrite Z.eqb_refl; cbn [andb orb];
      [reflexivity | now rewrite orb_true_r]. }
  destruct (best_time_step false uid line ut_pid st A) as [_ Hle]; [lia..|].
  specialize (Hle Hel).
  destruct (labelled_iteration false uid line ut_pid st A ByCaller)
    as [(_ & _ & Hb)
       | [(_ & Hc & Hb) | [(_ & _ & Hc & Hb) | (_ & _ & _ & Hc & Hb)]]].
  - lia.
  - auto.
  - split; [exact Hc|]. destruct Hb as [Hb | Hb]; [lia | exact Hb].
  - auto.
Qed.

(** A process of another user that is not the login process leaves
    [best_time] alone, and leaves the candidate alone once [cmdline] is
    no longer the placeholder. *)
Lemma foreign_step (uid line ut_pid : Z) (st : scan) (B : pids_stack) :
  EU_TGID B <> ut_pid ->
  EU_EUID B <> uid -> EU_RUID B <> uid ->
  best_time (loop_body false uid line ut_pid st B) = best_time st
  /\ (is_placeholder (cmdline st) = false ->
      candidate (loop_body false uid line ut_pid st B) = candidate st).
Proof.
  intros Hl He Hr.
  assert (Hskip : forall s, filter_writes false uid s B = false).
  { intros s. unfold filter_writes, filter_skip.
    apply Z.eqb_neq in He, Hr. rewrite Z.eqb_sym in He, Hr.
    rewrite He, Hr. reflexivity. }
  assert (Hlead : leader_writes ut_pid st B = false).
  { unfold leader_writes. apply Z.eqb_neq in Hl. now rewrite Hl. }
  destruct (leader_step_keeps ut_pid st B Hlead) as [Hc1 Hb1].
  unfold loop_body. destruct (EU_TTY B =? line); cbn [negb]; [|auto].
  set (st2 := add_jcpu (leader_step ut_pid st B) B).
  destruct (filter_step_keeps false uid line (interim_step st2 B) B (Hskip _))
    as [-> _].
  destruct (interim_step_frame st2 B) as (_ & _ & ->).
  split; [exact Hb1|].
  intros Hph. rewrite interim_step_keeps; [exact Hc1|].
  unfold interim_writes. replace (cmdline st2) with (cmdline st).
  - rewrite Hph. apply andb_false_r.
  - unfold candidate in Hc1. injection Hc1 as _ _ Hcmd. symmetry. exact Hcmd.
Qed.

(** C2 (as amended): in Scenario C, when moreover process B is not the
    login process and the command line of process A is not the string
    ["-"], [find_best_proc] returns the PID, the tics and the (copied)
    command line of A, whichever of the two comes first in the table. *)
Theorem scenario_C_selects_A (uid line ut_pid : Z) (cmdline0 : list ascii)
    (pid0 : Z) (A B : pids_stack) (reap : list pids_stack) :
  is_placeholder cmdline0 = true ->
  EU_TTY A = line -> EU_TTY B = line ->
  EU_EUID A = uid \/ EU_RUID A = uid ->
  EU_PGRP A = EU_TPGID A ->
  EU_START A = 200 ->
  EU_EUID B <> uid -> EU_RUID B <> uid ->
  EU_START B = 300 ->
  EU_TGID B <> ut_pid ->
  cstr (EU_CMDLINE A) <> ["-"%char] ->
  reap = [A; B] \/ reap = [B; A] ->
  candidate (find_best_proc false (Some uid) line ut_pid cmdline0 pid0 reap) =
  candidate_of cmdline0 A.
Proof.
  intros Hph HttyA HttyB HuidA HpgrpA HstartA HeB HrB HstartB HlB HcmdA Horder.
  unfold find_best_proc. cbn [negb].
  assert (HposA : 0 < EU_START A) by lia.
  destruct Horder as [-> | ->]; cbn [scan_procs fold_left].
  - destruct (foreground_step_first uid line ut_pid (scan_init cmdline0 pid0) A)
      as [HcA _]; auto.
    cbn [scan_init cmdline] in HcA.
    destruct (foreign_step uid line ut_pid
                (loop_body false uid line ut_pid (scan_init cmdline0 pid0) A) B)
      as [_ Hkeep]; auto.
    rewrite Hkeep; [exact HcA|].
    unfold candidate, candidate_of in HcA. injection HcA as _ _ ->.
    destruct (is_placeholder (strncpy cmdline0 (EU_CMDLINE A) MAX_CMD_WIDTH))
      eqn:E; [|reflexivity].
    apply is_placeholder_strncpy in E. contradiction.
  - destruct (foreign_step uid line ut_pid (scan_init cmdline0 pid0) B)
      as [HbB _]; auto.
    cbn [scan_init best_time] in HbB.
    destruct (foreground_step_first uid line ut_pid
                (loop_body false uid line ut_pid (scan_init cmdline0 pid0) B) A)
      as [HcA _]; auto.
    rewrite HcA. apply candidate_of_rebase.
    destruct (candidate_loop_body false uid line ut_pid
                (scan_init cmdline0 pid0) B) as [E | E];
      unfold candidate, candidate_of in E; injection E as _ _ ->;
      [reflexivity | apply skipn_strncpy].
Qed.

Lemma scenario_C_selects_A_witness :
  candidate (find_best_proc false (Some 1000) pts0 700 dash_buffer (-1)
               [login_proc; vim_proc]) = candidate_of dash_buffer vim_proc.
Proof.
  apply (scenario_C_selects_A 1000 pts0 700 dash_buffer (-1)
           vim_proc login_proc);
    try reflexivity; try discriminate.
  - left. reflexivity.
  - right. reflexivity.
Defined.

(** C2 (as stated) fails in two ways.  When B is the login process and
    comes first, its start time 300 becomes [best_time] and A, started at
    200, is never promoted: B is returned, while the other order returns
    A.  When the command line of A is ["-"] and A comes first, the
    placeholder test still succeeds at B, which replaces A. *)
Lemma scenario_C_counterexample :
  (candidate (find_best_proc false (Some 1000) pts0 650 dash_buffer (-1)
                [login_proc; vim_proc]) = candidate_of dash_buffer login_proc
   /\ candidate (find_best_proc false (Some 1000) pts0 650 dash_buffer (-1)
                [vim_proc; login_proc]) = candidate_of dash_buffer vim_proc
   /\ candidate_of dash_buffer login_proc <> candidate_of dash_buffer vim_proc)
  /\ (candidate (find_best_proc false (Some 1000) pts0 700 dash_buffer (-1)
                [dash_proc; login_proc]) = candidate_of dash_buffer login_proc
      /\ candidate_of dash_buffer login_proc
         <> candidate_of dash_buffer dash_proc).
Proof.
  repeat split; try (vm_compute; reflexivity); vm_compute; discriminate.
Qed.

(** ** The FROM column: results about the printing routines *)

Lemma spaces_length (n : Z) : Z.of_nat (length (spaces n)) = Z.max 0 n.
Proof. unfold spaces. rewrite repeat_length. lia. Qed.

Section FormatterFacts.

Variable isprint : ascii -> bool.

Lemma print_host_loop_width (host : cptr) (n i : nat) (width : Z) :
  snd (print_host_loop isprint host n i width) =
    width + Z.of_nat (length (fst (print_host_loop isprint host n i width)))
  /\ (length (fst (print_host_loop isprint host n i width)) <= n)%nat.
Proof.
  revert i width. induction n as [|n IH]; intros i width; cbn [print_host_loop].
  - cbn. lia.
  - destruct (Ascii.eqb (host i) NUL); [cbn; lia|].
    destruct (isprint (host i) && negb (Ascii.eqb (host i) " ")); [|cbn; lia].
    specialize (IH (S i) (width + 1)).
    destruct (print_host_loop isprint host n (S i) (width + 1)) as [out w].
    cbn [fst snd length] in *. lia.
Qed.

(** With a positive [fromlen], [print_host] writes [fromlen] characters. *)
Lemma print_host_length_pos (host : cptr) (len fromlen : Z) :
  0 < fromlen ->
  Z.of_nat (length (print_host isprint host len fromlen)) = fromlen.
Proof.
  intros Hpos. unfold print_host.
  set (len' := if len >? fromlen then fromlen else len).
  assert (Hlen' : len' <= fromlen).
  { subst len'. destruct (Z.gtb_spec len fromlen); lia. }
  pose proof (print_host_loop_width host (Z.to_nat len') 0 0) as [Hw Hn].
  destruct (print_host_loop isprint host (Z.to_nat len') 0 0) as [out w].
  cbn [fst snd] in Hw, Hn.
  destruct (Z.eqb_spec w 0) as [E|E];
    rewrite !length_app, !Nat2Z.inj_add, spaces_length; cbn [length]; lia.
Qed.

(** With a [fromlen] that is not positive, [print_host] writes one dash. *)
Lemma print_host_nonpos (host : cptr) (len fromlen : Z) :
  fromlen <= 0 -> print_host isprint host len fromlen = ["-"%char].
Proof.
  intros Hle. unfold print_host.
  set (len' := if len >? fromlen then fromlen else len).
  assert (Hlen' : Z.to_nat len' = O).
  { subst len'. destruct (Z.gtb_spec len fromlen); lia. }
  rewrite Hlen'. cbn [print_host_loop Z.eqb app Z.add].
  unfold spaces. replace (Z.to_nat (fromlen - 1)) with O by lia. reflexivity.
Qed.

Lemma put_printable_counts (host : cptr) (rounds i : nat) (len restlen : Z) :
  let r := put_printable isprint host rounds i len restlen in
  let k := length (fst r) in
  snd r = ((i + k)%nat, len - Z.of_nat k, restlen - Z.of_nat k)
  /\ (k <= rounds)%nat.
Proof.
  revert i len restlen.
  induction rounds as [|rounds IH]; intros i len restlen;
    cbn [put_printable].
  - cbn. split; [f_equal; [f_equal|]; lia | lia].
  - destruct ((len >? 0) && isprint (host i) && negb (Ascii.eqb (host i) " ")).
    + specialize (IH (S i) (len - 1) (restlen - 1)). cbv zeta in IH.
      destruct (put_printable isprint host rounds (S i) (len - 1) (restlen - 1))
        as [out fin].
      cbn [fst snd length] in *. destruct IH as [-> Hk].
      split; [f_equal; [f_equal|]; lia | lia].
    + cbn. split; [f_equal; [f_equal|]; lia | lia].
Qed.

(** [print_part] never writes more than [restlen] allows. *)
Lemma print_part_budget (host : cptr) (i : nat) (len restlen : Z) :
  0 <= restlen ->
  0 <= snd (print_part isprint host i len restlen)
  /\ Z.of_nat (length (fst (print_part isprint host i len restlen)))
     + snd (print_part isprint host i len restlen) = restlen.
Proof.
  intros Hr. unfold print_part.
  set (len' := if len >? restlen then restlen else len).
  assert (Hlen' : len' <= restlen).
  { subst len'. destruct (Z.gtb_spec len restlen); lia. }
  pose proof (put_printable_counts host (Z.to_nat len') i len' restlen)
    as [Hfin Hk]. cbv zeta in Hfin, Hk.
  destruct (put_printable isprint host (Z.to_nat len') i len' restlen)
    as [out [[i' l'] r']].
  cbn [fst snd] in Hfin, Hk. injection Hfin as -> -> ->.
  destruct (Z.gtb_spec (len' - Z.of_nat (length out)) 0) as [G|G];
    cbn [andb].
  - destruct (negb (Ascii.eqb (host (i + length out)%nat) NUL));
      cbn [fst snd]; rewrite ?length_app; cbn [length]; lia.
  - cbn [fst snd]. lia.
Qed.

(** With a positive [restlen], [print_display_or_interface] writes
    [restlen] characters. *)
Lemma print_display_or_interface_length (host : cptr) (len restlen : Z) :
  0 < restlen ->
  Z.of_nat (length (print_display_or_interface isprint host len restlen)) =
  restlen.
Proof.
  intros Hpos. unfold print_display_or_interface.
  destruct (Z.leb_spec restlen 0) as [L|_]; [lia|].
  assert (Hpart : forall i l,
    Z.of_nat (length (let (out, r) := print_part isprint host i l restlen in
                      out ++ spaces r)) = restlen).
  { intros i l. pose proof (print_part_budget host i l restlen) as [H0 Hsum];
      [lia|].
    destruct (print_part isprint host i l restlen) as [out r].
    cbn [fst snd] in *. rewrite length_app, Nat2Z.inj_add, spaces_length. lia. }
  assert (Hnone : Z.of_nat (length ([] ++ spaces restlen)) = restlen).
  { cbn [app]. rewrite spaces_length. lia. }
  repeat match goal with
         | |- context [if ?b then _ else _] =>
             lazymatch b with
             | context [if _ then _ else _] => fail
             | _ => destruct b
             end
         end; auto.
Qed.

End FormatterFacts.

(** *** Sample outputs *)

Example print_host_stops_at_space :
  print_host isprint_C (ptr_of (chars "abc def"%string)) 7 10 =
  chars "abc-      "%string.
Proof. reflexivity. Qed.

Example print_host_printable_source :
  print_host isprint_C (ptr_of (chars "alice-pc"%string)) 8 10 =
  chars "alice-pc  "%string.
Proof. reflexivity. Qed.

Example print_from_display_suffix :
  print_from isprint_C 256 never_v4mapped ntop4_sample ntop6_none
    None (Some ssh_entry) true 16 = chars "192.168.1.7:10.0"%string.
Proof. vm_compute. reflexivity. Qed.

(** With no address to convert, the whole FROM column comes from
    [print_host], colon included. *)
Example print_from_falls_back_to_host :
  print_from isprint_C 256 never_v4mapped ntop4_sample ntop6_none
    None (Some named_entry) true 16 = chars "myhost:5.0      "%string.
Proof. vm_compute. reflexivity. Qed.

(** C6: for every positive [fromlen], every source and every [len],
    [print_host] writes exactly [fromlen] characters. *)
Theorem print_host_fills_width (isprint : ascii -> bool) (host : cptr)
    (len fromlen : Z) :
  0 < fromlen ->
  Z.of_nat (length (print_host isprint host len fromlen)) = fromlen.
Proof.
  apply print_host_length_pos.
Qed.

Lemma print_host_fills_width_witness :
  Z.of_nat
    (length (print_host isprint_C (ptr_of (chars "abc def"%string)) 7 10)) = 10
  /\ Z.of_nat (length (print_host isprint_C (ptr_of []) 0 16)) = 16
  /\ Z.of_nat (length (print_host isprint_C (ptr_of (repeat "007"%char 4)) 4 8))
     = 8.
Proof.
  split; [|split]; apply print_host_fills_width; lia.
Defined.

(** C7 (as amended): with a width that is zero or negative,
    [print_display_or_interface] writes nothing, and [print_host] writes
    exactly one dash. *)
Theorem nonpositive_width_output (isprint : ascii -> bool) (host : cptr)
    (len width : Z) :
  width <= 0 ->
  print_display_or_interface isprint host len width = []
  /\ print_host isprint host len width = ["-"%char].
Proof.
  intros Hle. split.
  - unfold print_display_or_interface.
    destruct (Z.leb_spec width 0) as [_|G]; [reflexivity | lia].
  - now apply print_host_nonpos.
Qed.

Lemma nonpositive_width_output_witness :
  print_display_or_interface isprint_C (ptr_of (chars "host:0"%string)) 6 0 = []
  /\ print_host isprint_C (ptr_of (chars "host:0"%string)) 6 0 = ["-"%char].
Proof.
  apply nonpositive_width_output. lia.
Defined.

(** C7 (as stated) fails for [print_host]: with width 0, and with a
    negative width, it writes a dash. *)
Lemma print_host_zero_width_counterexample :
  print_host isprint_C (ptr_of (chars "alice-pc"%string)) 8 0 = ["-"%char]
  /\ print_host isprint_C (ptr_of []) 0 (-3) = ["-"%char]
  /\ print_host isprint_C (ptr_of (chars "alice-pc"%string)) 8 0 <> [].
Proof.
  repeat split; try reflexivity. vm_compute. discriminate.
Qed.

Section FromFacts.

Variable isprint : ascii -> bool.
Variable UT_HOSTSIZE : Z.
Variable IN6_IS_ADDR_V4MAPPED : Z * Z * Z * Z -> bool.
Variable inet_ntop_AF_INET : Z -> Z -> option (list ascii).
Variable inet_ntop_AF_INET6 : Z * Z * Z * Z -> Z -> option (list ascii).

Lemma address_text_length (addr : Z * Z * Z * Z) (fromlen : Z) :
  0 <= fromlen ->
  Z.of_nat (length (address_text IN6_IS_ADDR_V4MAPPED inet_ntop_AF_INET
                      inet_ntop_AF_INET6 addr fromlen)) <= fromlen.
Proof.
  intros Hpos. unfold address_text.
  assert (Hcut : forall t : list ascii,
             Z.of_nat (length (firstn (Z.to_nat fromlen) t)) <= fromlen).
  { intros t. rewrite length_firstn. lia. }
  destruct (if IN6_IS_ADDR_V4MAPPED addr
            then let '(_, _, _, w3) := addr in (w3, 0, 0, 0) else addr)
    as [[[w0 w1] w2] w3].
  repeat match goal with
         | |- context [match ?b with _ => _ end] =>
             lazymatch b with
             | context [match _ with _ => _ end] => fail
             | _ => destruct b
             end
         end; cbn [length]; auto; lia.
Qed.

(** With a positive [fromlen], [print_from] writes [fromlen] characters. *)
Lemma print_from_length (session : option (option (list ascii)))
    (u : option utmp_t) (ip_addresses : bool) (fromlen : Z) :
  0 < fromlen ->
  Z.of_nat (length (print_from isprint UT_HOSTSIZE IN6_IS_ADDR_V4MAPPED
                      inet_ntop_AF_INET inet_ntop_AF_INET6
                      session u ip_addresses fromlen)) = fromlen.
Proof.
  intros Hpos. unfold print_from.
  destruct session as [[host|]|]; try (now apply print_host_length_pos).
  destruct u as [u|]; [|now apply print_host_length_pos].
  destruct ip_addresses; [|now apply print_host_length_pos].
  pose proof (address_text_length (ut_addr_v6 u) fromlen) as Hbuf.
  set (buf := address_text _ _ _ _ _) in *.
  destruct (Z.eqb_spec (Z.of_nat (length buf)) 0) as [E|E]; cbn [negb];
    [now apply print_host_length_pos|].
  rewrite length_app, Nat2Z.inj_add.
  destruct (Z.eq_dec (Z.of_nat (length buf)) fromlen) as [F|F].
  - rewrite F, Z.sub_diag.
    unfold print_display_or_interface. cbn [Z.leb Z.compare]. cbn. lia.
  - rewrite print_display_or_interface_length; lia.
Qed.

End FromFacts.

(** C9: for every positive [fromlen] and every utmp entry, whatever the
    address words, the host bytes and the answers of [inet_ntop],
    [print_from] writes at least 1 and at most [fromlen] characters: the
    address text is cut to [fromlen], [print_display_or_interface] stays
    within the width that is left, and [print_host] writes at least a
    dash. *)
Theorem print_from_within_width (isprint : ascii -> bool) (UT_HOSTSIZE : Z)
    (IN6_IS_ADDR_V4MAPPED : Z * Z * Z * Z -> bool)
    (inet_ntop_AF_INET : Z -> Z -> option (list ascii))
    (inet_ntop_AF_INET6 : Z * Z * Z * Z -> Z -> option (list ascii))
    (session : option (option (list ascii))) (u : option utmp_t)
    (ip_addresses : bool) (fromlen : Z) :
  0 < fromlen ->
  1 <= Z.of_nat (length (print_from isprint UT_HOSTSIZE IN6_IS_ADDR_V4MAPPED
                           inet_ntop_AF_INET inet_ntop_AF_INET6
                           session u ip_addresses fromlen)) <= fromlen
  /\ Z.of_nat (length (address_text IN6_IS_ADDR_V4MAPPED inet_ntop_AF_INET
                         inet_ntop_AF_INET6
                         (match u with
                          | Some e => ut_addr_v6 e
                          | None => (0, 0, 0, 0)
                          end) fromlen)) <= fromlen
  /\ (forall host len restlen,
        Z.of_nat (length (print_display_or_interface isprint host len restlen))
        <= Z.max 0 restlen)
  /\ (forall host len,
        1 <= Z.of_nat (length (print_host isprint host len fromlen))).
Proof.
  intros Hpos. split; [|split; [|split]].
  - rewrite print_from_length by exact Hpos. lia.
  - apply address_text_length. lia.
  - intros host len restlen. destruct (Z.leb_spec restlen 0) as [L|G].
    + unfold print_display_or_interface.
      destruct (Z.leb_spec restlen 0); [cbn; lia | lia].
    + rewrite print_display_or_interface_length; lia.
  - intros host len. rewrite print_host_length_pos; lia.
Qed.

Lemma print_from_within_width_witness :
  1 <= Z.of_nat (length (print_from isprint_C 256 never_v4mapped ntop4_sample
                           ntop6_none None (Some ssh_entry) true 16)) <= 16.
Proof.
  apply (print_from_within_width isprint_C 256 never_v4mapped ntop4_sample
           ntop6_none None (Some ssh_entry) true 16).
  lia.
Defined.

Section SeparatorFacts.

Variable isprint : ascii -> bool.

(** The scanning loop stops at the first offset that holds the wanted
    byte or an unprintable one, or at the end of the field. *)
Lemma scan_until_stops (stop : ascii) (host : cptr) (n i d : nat) :
  (i <= d <= i + n)%nat ->
  passes isprint stop host i d ->
  d = (i + n)%nat \/ host d = stop \/ isprint (host d) = false ->
  scan_until isprint stop host n i = d.
Proof.
  revert i. induction n as [|n IH]; intros i Hd Hpass Hstop;
    cbn [scan_until]; [lia|].
  destruct (Nat.eq_dec i d) as [->|Hne].
  - destruct Hstop as [H | [H | H]]; [lia | |].
    + rewrite H, Ascii.eqb_refl. reflexivity.
    + rewrite H, andb_false_r. reflexivity.
  - destruct (Hpass i) as [Hs Hp]; [lia|].
    apply Ascii.eqb_neq in Hs. rewrite Hs, Hp. cbn [negb andb].
    apply IH; [lia | | ].
    + intros j Hj. apply Hpass. lia.
    + destruct Hstop as [H | H]; [left; lia | right; exact H].
Qed.

(** The printing loop writes the [n] bytes from offset [i] when each is
    printable and no space, and stops behind them when its rounds or [len]
    are used up or the next byte is a space or unprintable. *)
Lemma put_printable_run (host : cptr) (n rounds i : nat) (len restlen : Z) :
  (n <= rounds)%nat -> Z.of_nat n <= len ->
  (forall j, (i <= j < i + n)%nat ->
             isprint (host j) = true /\ host j <> " "%char) ->
  rounds = n \/ len = Z.of_nat n
  \/ isprint (host (i + n)%nat) = false \/ host (i + n)%nat = " "%char ->
  put_printable isprint host rounds i len restlen =
  (map host (seq i n),
   ((i + n)%nat, len - Z.of_nat n, restlen - Z.of_nat n)).
Proof.
  revert rounds i len restlen.
  induction n as [|n IH]; intros rounds i len restlen Hr Hlen Hrun Hstop.
  - cbn [seq map]. rewrite Nat.add_0_r, !Z.sub_0_r.
    destruct rounds as [|r]; [reflexivity|]. cbn [put_printable].
    rewrite Nat.add_0_r in Hstop.
    destruct Hstop as [H | [H | [H | H]]].
    + discriminate.
    + destruct (Z.gtb_spec len 0) as [Hl | Hl]; [cbn in H; lia | reflexivity].
    + rewrite H, andb_false_r. reflexivity.
    + rewrite H, Ascii.eqb_refl, andb_false_r. reflexivity.
  - destruct rounds as [|r]; [lia|]. cbn [put_printable].
    destruct (Hrun i) as [Hp Hsp]; [lia|]. apply Ascii.eqb_neq in Hsp.
    destruct (Z.gtb_spec len 0) as [_ | Hl]; [|lia].
    rewrite Hp, Hsp. cbn [andb negb].
    rewrite (IH r (S i) (len - 1) (restlen - 1)).
    + cbn [seq map]. f_equal. f_equal; [f_equal; lia | lia].
    + lia.
    + lia.
    + intros j Hj. apply Hrun. lia.
    + replace (S i + n)%nat with (i + S n)%nat by lia.
      destruct Hstop as [Hs | [Hs | Hs]];
        [left; lia | right; left; lia | right; right; exact Hs].
Qed.

(** The cut, print and dash block started on a separator at offset [i]
    that is itself printable and no space: it writes the separator, the
    [m] bytes described by [content_after], and the dash if there is
    one. *)
Lemma print_part_content (host : cptr) (i : nat) (len restlen : Z)
    (m : nat) (dash : bool) :
  isprint (host i) = true -> host i <> " "%char ->
  content_after isprint host i (Z.min len restlen) m dash ->
  print_part isprint host i len restlen =
  (host i :: map host (seq (S i) m) ++ (if dash then ["-"%char] else []),
   restlen - 1 - Z.of_nat m - (if dash then 1 else 0)).
Proof.
  intros Hp Hsp [Hrun Hend]. unfold print_part.
  replace (if len >? restlen then restlen else len) with (Z.min len restlen)
    by (destruct (Z.gtb_spec len restlen); lia).
  set (budget := Z.min len restlen) in *.
  assert (Hfit : Z.of_nat (S m) <= budget) by lia.
  rewrite (put_printable_run host (S m) (Z.to_nat budget) i budget restlen).
  - cbn [seq map app]. replace (i + S m)%nat with (S (i + m)) by lia.
    destruct Hend as [[Hcut ->] | (Hless & Hstop & ->)].
    + destruct (Z.gtb_spec (budget - Z.of_nat (S m)) 0); [lia|].
      cbn [andb]. rewrite app_nil_r. f_equal. lia.
    + destruct (Z.gtb_spec (budget - Z.of_nat (S m)) 0); [|lia].
      cbn [andb].
      destruct (negb (Ascii.eqb (host (S (i + m))) NUL)).
      * f_equal. lia.
      * rewrite !app_nil_r. f_equal. lia.
  - lia.
  - exact Hfit.
  - intros j Hj. destruct (Nat.eq_dec j i) as [-> | Hne].
    + split; assumption.
    + apply Hrun. lia.
  - replace (i + S m)%nat with (S (i + m)) by lia.
    destruct Hend as [[Hcut _] | (_ & Hstop & _)].
    + left. lia.
    + right. right. exact Hstop.
Qed.

(** The column once the separator at offset [i] is found: the block
    gets the bytes left in the field and the width left in the column. *)
Lemma separator_written (host : cptr) (i : nat) (len restlen : Z)
    (m : nat) (dash : bool) :
  (i < field_end len)%nat ->
  isprint (host i) = true -> host i <> " "%char ->
  content_after isprint host i (Z.min (len - Z.of_nat i) restlen) m dash ->
  (let (out, r) := print_part isprint host i (len - Z.of_nat i) restlen in
   out ++ spaces r) =
  host i :: map host (seq (S i) m) ++ (if dash then ["-"%char] else [])
    ++ spaces (restlen - 1 - Z.of_nat m - (if dash then 1 else 0)).
Proof.
  intros Hi Hp Hsp Hcontent.
  rewrite (print_part_content host i (len - Z.of_nat i) restlen m dash)
    by assumption.
  cbn [app]. rewrite <- app_assoc. reflexivity.
Qed.

(** Whatever the bytes behind the separator are, some [m] and [dash] fit
    them, as soon as the budget has room for the separator. *)
Lemma content_after_exists (host : cptr) (budget : Z) (i : nat) :
  1 <= budget ->
  exists (m : nat) (dash : bool), content_after isprint host i budget m dash.
Proof.
  intros Hb. remember (Z.to_nat (budget - 1)) as n eqn:En.
  revert budget i Hb En. induction n as [|n IH]; intros budget i Hb En.
  - exists 0%nat, false. split; [intros j Hj; lia | left; split; [lia | reflexivity]].
  - destruct (isprint (host (S i))) eqn:Hp.
    + destruct (Ascii.eqb_spec (host (S i)) " "%char) as [Hsp | Hsp].
      * exists 0%nat, (negb (Ascii.eqb (host (S i)) NUL)).
        split; [intros j Hj; lia|]. right. rewrite Nat.add_0_r.
        split; [lia | split; [right; exact Hsp | reflexivity]].
      * destruct (IH (budget - 1) (S i)) as (m & dash & Hrun & Hend);
          [lia | lia |].
        exists (S m), dash. split.
        -- intros j Hj. destruct (Nat.eq_dec j (S i)) as [-> | Hne].
           ++ split; assumption.
           ++ apply Hrun. lia.
        -- replace (S (i + S m)) with (S (S i + m)) by lia.
           destruct Hend as [[Hcut Hd] | (Hless & Hstop & Hd)].
           ++ left. split; [lia | exact Hd].
           ++ right. split; [lia | split; assumption].
    + exists 0%nat, (negb (Ascii.eqb (host (S i)) NUL)).
      split; [intros j Hj; lia|]. right. rewrite Nat.add_0_r.
      split; [lia | split; [left; exact Hp | reflexivity]].
Qed.

End SeparatorFacts.

(** C8 (as amended): let [restlen] be positive and let [':'] and ['%'] be
    printable.  In the display case (a colon at offset [d], reached over
    printable bytes, and no second colon before the field ends or an
    unprintable byte stops the search) the output is the colon itself;
    then the [m] bytes behind it, which are printable and no spaces and
    are cut to the width left in the column and to the end of the field;
    then a dash if a space or an unprintable byte other than NUL ended
    them before the cut; then the padding.  In the interface case (a
    second colon at offset [t], then a ['%'] at offset [k]) the output is
    the ['%'] itself, then the bytes behind it by the same rule, the dash
    if any, and the padding. *)
Theorem separator_is_emitted (isprint : ascii -> bool) (host : cptr)
    (len restlen : Z) (d : nat) :
  0 < restlen ->
  isprint ":"%char = true -> isprint "%"%char = true ->
  (d < field_end len)%nat -> host d = ":"%char ->
  passes isprint ":" host 0 d ->
  (forall t : nat,
      (d < t <= field_end len)%nat ->
      passes isprint ":" host (S d) t ->
      t = field_end len \/ isprint (host t) = false ->
      forall (m : nat) (dash : bool),
      content_after isprint host d (Z.min (len - Z.of_nat d) restlen) m dash ->
      print_display_or_interface isprint host len restlen =
      ":"%char :: map host (seq (S d) m)
        ++ (if dash then ["-"%char] else [])
        ++ spaces (restlen - 1 - Z.of_nat m - (if dash then 1 else 0)))
  /\ (forall t k : nat,
      (d < t < field_end len)%nat -> host t = ":"%char ->
      passes isprint ":" host (S d) t ->
      (t < k < field_end len)%nat -> host k = "%"%char ->
      passes isprint "%" host t k ->
      forall (m : nat) (dash : bool),
      content_after isprint host k (Z.min (len - Z.of_nat k) restlen) m dash ->
      print_display_or_interface isprint host len restlen =
      "%"%char :: map host (seq (S k) m)
        ++ (if dash then ["-"%char] else [])
        ++ spaces (restlen - 1 - Z.of_nat m - (if dash then 1 else 0))).
Proof.
  intros Hrest Hcolon Hpercent Hd Hhd Hpass0.
  assert (Hdisp : scan_until isprint ":" host (field_end len) 0 = d).
  { apply scan_until_stops; [lia | exact Hpass0 | right; left; exact Hhd]. }
  assert (Hfound : (d <? field_end len)%nat && Ascii.eqb (host d) ":" = true).
  { rewrite Hhd, Ascii.eqb_refl, andb_true_r. apply Nat.ltb_lt. exact Hd. }
  split.
  - intros t Ht Hpass Hend m dash Hcontent.
    assert (Htmp : scan_until isprint ":" host (field_end len - (d + 1)) (d + 1)
                   = t).
    { apply scan_until_stops; [lia | | ].
      - replace (d + 1)%nat with (S d) by lia. exact Hpass.
      - destruct Hend as [-> | H]; [left; lia | right; right; exact H]. }
    unfold print_display_or_interface.
    destruct (Z.leb_spec restlen 0) as [|_]; [lia|].
    rewrite Hdisp, Hfound, Htmp.
    assert (Hno : (field_end len <=? t)%nat || negb (Ascii.eqb (host t) ":")
                  = true).
    { destruct Hend as [-> | H].
      - rewrite Nat.leb_refl. reflexivity.
      - apply orb_true_iff. right. apply negb_true_iff, Ascii.eqb_neq.
        intros E. rewrite E, Hcolon in H. discriminate. }
    rewrite Hno. rewrite <- Hhd at 1.
    apply separator_written; try assumption; rewrite Hhd;
      [exact Hcolon | discriminate].
  - intros t k Ht Hht Hpass Hk Hhk Hpassk m dash Hcontent.
    assert (Htmp : scan_until isprint ":" host (field_end len - (d + 1)) (d + 1)
                   = t).
    { apply scan_until_stops; [lia | | right; left; exact Hht].
      replace (d + 1)%nat with (S d) by lia. exact Hpass. }
    assert (Hpct : scan_until isprint "%" host (field_end len - t) t = k).
    { apply scan_until_stops; [lia | exact Hpassk | right; left; exact Hhk]. }
    unfold print_display_or_interface.
    destruct (Z.leb_spec restlen 0) as [|_]; [lia|].
    rewrite Hdisp, Hfound, Htmp.
    assert (Hyes : (field_end len <=? t)%nat || negb (Ascii.eqb (host t) ":")
                   = false).
    { rewrite Hht, Ascii.eqb_refl. cbn [negb]. rewrite orb_false_r.
      apply Nat.leb_gt. lia. }
    rewrite Hyes, Hpct.
    assert (Hfk : (k <? field_end len)%nat && Ascii.eqb (host k) "%" = true).
    { rewrite Hhk, Ascii.eqb_refl, andb_true_r. apply Nat.ltb_lt. lia. }
    rewrite Hfk. rewrite <- Hhk at 1.
    apply separator_written; try assumption; try lia; rewrite Hhk;
      [exact Hpercent | discriminate].
Qed.

Ltac check_passes :=
  let j := fresh "j" in
  let Hj := fresh "Hj" in
  intros j Hj;
  repeat (destruct j as [|j];
          [first [lia
                 | split; [vm_compute; discriminate | vm_compute; reflexivity]]
          | try lia]).

(** The bytes counted by [content_after], checked one by one. *)
Ltac check_content :=
  let j := fresh "j" in
  let Hj := fresh "Hj" in
  intros j Hj;
  repeat (destruct j as [|j];
          [first [lia
                 | split; [vm_compute; reflexivity | vm_compute; discriminate]]
          | try lia]).

Lemma separator_is_emitted_witness :
  print_display_or_interface isprint_C (ptr_of x11_host) 256 5 =
    chars ":0   "%string
  /\ print_display_or_interface isprint_C (ptr_of spaced_host) 256 6 =
    chars ":0-   "%string
  /\ print_display_or_interface isprint_C (ptr_of scoped_host) 256 3 =
    chars "%et"%string
  /\ print_display_or_interface isprint_C (ptr_of scoped_host) 256 8 =
    chars "%eth0   "%string.
Proof.
  split; [|split; [|split]].
  - destruct (separator_is_emitted isprint_C (ptr_of x11_host) 256 5 1)
      as [Hdisplay _].
    + lia.
    + reflexivity.
    + reflexivity.
    + cbn. lia.
    + reflexivity.
    + check_passes.
    + refine (Hdisplay 3%nat _ _ _ 1%nat false _);
        [cbn; lia | check_passes | right; reflexivity |].
      split; [check_content|].
      right. split; [lia | split; [left; reflexivity | reflexivity]].
  - destruct (separator_is_emitted isprint_C (ptr_of spaced_host) 256 6 1)
      as [Hdisplay _].
    + lia.
    + reflexivity.
    + reflexivity.
    + cbn. lia.
    + reflexivity.
    + check_passes.
    + refine (Hdisplay 5%nat _ _ _ 1%nat true _);
        [cbn; lia | check_passes | right; reflexivity |].
      split; [check_content|].
      right. split; [lia | split; [right; reflexivity | reflexivity]].
  - destruct (separator_is_emitted isprint_C (ptr_of scoped_host) 256 3 4)
      as [_ Hiface].
    + lia.
    + reflexivity.
    + reflexivity.
    + cbn. lia.
    + reflexivity.
    + check_passes.
    + refine (Hiface 5%nat 7%nat _ _ _ _ _ _ 2%nat false _);
        [cbn; lia | reflexivity | check_passes | cbn; lia | reflexivity
        | check_passes |].
      split; [check_content|].
      left. split; [lia | reflexivity].
  - destruct (separator_is_emitted isprint_C (ptr_of scoped_host) 256 8 4)
      as [_ Hiface].
    + lia.
    + reflexivity.
    + reflexivity.
    + cbn. lia.
    + reflexivity.
    + check_passes.
    + refine (Hiface 5%nat 7%nat _ _ _ _ _ _ 4%nat false _);
        [cbn; lia | reflexivity | check_passes | cbn; lia | reflexivity
        | check_passes |].
      split; [check_content|].
      right. split; [lia | split; [left; reflexivity | reflexivity]].
Defined.

(** C8 (as stated) fails: for the host ["x:0"] the output starts with the
    colon, and for ["fe80::1%eth0"] it starts with the ['%']; neither is
    the text after the separator alone. *)
Lemma separator_dropped_counterexample :
  print_display_or_interface isprint_C (ptr_of x11_host) 256 5 =
    chars ":0   "%string
  /\ print_display_or_interface isprint_C (ptr_of x11_host) 256 5 <>
    chars "0    "%string
  /\ print_display_or_interface isprint_C (ptr_of scoped_host) 256 8 =
    chars "%eth0   "%string
  /\ print_display_or_interface isprint_C (ptr_of scoped_host) 256 8 <>
    chars "eth0    "%string.
Proof.
  repeat split; try (vm_compute; reflexivity); vm_compute; discriminate.
Qed.

(** * Further properties of the printing routines *)

Section HostFacts.

Variable isprint : ascii -> bool.

Lemma spaces_nonpos (n : Z) : n <= 0 -> spaces n = [].
Proof.
  intros H. unfold spaces. replace (Z.to_nat n) with O by lia. reflexivity.
Qed.

(** The loop of [print_host] copies a run of plain bytes and goes on
    behind it. *)
Lemma print_host_loop_run (host : cptr) (k n i : nat) (width : Z) :
  (k <= n)%nat ->
  (forall j, (i <= j < i + k)%nat -> plain_byte isprint (host j)) ->
  print_host_loop isprint host n i width =
  (map host (seq i k)
     ++ fst (print_host_loop isprint host (n - k) (i + k)
               (width + Z.of_nat k)),
   snd (print_host_loop isprint host (n - k) (i + k) (width + Z.of_nat k))).
Proof.
  revert n i width. induction k as [|k IH]; intros n i width Hk Hrun.
  - cbn [seq map app]. rewrite Nat.sub_0_r, Nat.add_0_r, Z.add_0_r.
    now destruct (print_host_loop isprint host n i width).
  - destruct n as [|n]; [lia|]. cbn [print_host_loop].
    destruct (Hrun i) as (Hnul & Hp & Hsp); [lia|].
    apply Ascii.eqb_neq in Hnul, Hsp. rewrite Hnul, Hp, Hsp. cbn [andb negb].
    rewrite (IH n (S i) (width + 1)); [|lia|intros j Hj; apply Hrun; lia].
    cbn [seq map app Nat.sub].
    replace (S i + k)%nat with (i + S k)%nat by lia.
    replace (width + 1 + Z.of_nat k) with (width + Z.of_nat (S k)) by lia.
    reflexivity.
Qed.

Lemma print_host_loop_chars (host : cptr) (n i : nat) (width : Z) :
  Forall (column_char isprint) (fst (print_host_loop isprint host n i width)).
Proof.
  revert i width. induction n as [|n IH]; intros i width;
    cbn [print_host_loop]; [constructor|].
  destruct (Ascii.eqb (host i) NUL); [constructor|].
  destruct (isprint (host i) && negb (Ascii.eqb (host i) " ")) eqn:E.
  - specialize (IH (S i) (width + 1)).
    destruct (print_host_loop isprint host n (S i) (width + 1)).
    cbn [fst] in *. constructor; [|exact IH].
    apply andb_true_iff in E. right. right. apply E.
  - repeat constructor.
Qed.

Lemma spaces_chars (n : Z) : Forall (column_char isprint) (spaces n).
Proof.
  unfold spaces. induction (Z.to_nat n); cbn; constructor; auto.
  right. left. reflexivity.
Qed.

End HostFacts.

(** X1: [print_host] never writes a byte that [isprint] rejects: every
    character of its output is printable, a dash or a space. *)
Theorem print_host_output_is_printable (isprint : ascii -> bool)
    (host : cptr) (len fromlen : Z) :
  Forall (column_char isprint) (print_host isprint host len fromlen).
Proof.
  unfold print_host.
  pose proof (print_host_loop_chars isprint host
                (Z.to_nat (if len >? fromlen then fromlen else len)) 0 0) as H.
  destruct (print_host_loop isprint host _ 0 0) as [out w]. cbn [fst] in H.
  destruct (w =? 0); apply Forall_app; split;
    try apply spaces_chars; try exact H.
  apply Forall_app. split; [exact H | repeat constructor].
Qed.

(** X2: when the first [k > 0] bytes of the source are plain and the
    source, the width or a NUL ends the text there, [print_host] writes
    these [k] bytes followed by spaces up to [fromlen], with no dash. *)
Theorem print_host_copies_plain_text (isprint : ascii -> bool) (host : cptr)
    (len fromlen : Z) (k : nat) :
  (0 < k)%nat -> Z.of_nat k <= len -> Z.of_nat k <= fromlen ->
  (forall j, (j < k)%nat -> plain_byte isprint (host j)) ->
  Z.of_nat k = len \/ Z.of_nat k = fromlen \/ host k = NUL ->
  print_host isprint host len fromlen =
  first_bytes host k ++ spaces (fromlen - Z.of_nat k).
Proof.
  intros Hpos Hlen Hfrom Hrun Hend. unfold print_host, first_bytes.
  set (len' := if len >? fromlen then fromlen else len).
  assert (Hk : (k <= Z.to_nat len')%nat).
  { subst len'. destruct (Z.gtb_spec len fromlen); lia. }
  rewrite (print_host_loop_run isprint host k _ 0 0 Hk)
    by (intros j Hj; apply Hrun; lia).
  cbn [Nat.add Z.add].
  assert (Hrest : print_host_loop isprint host (Z.to_nat len' - k) k
                    (Z.of_nat k) = ([], Z.of_nat k)).
  { destruct (Z.to_nat len' - k)%nat eqn:En; [reflexivity|].
    cbn [print_host_loop].
    destruct Hend as [H | [H | H]];
      [subst len'; destruct (Z.gtb_spec len fromlen); lia
      |subst len'; destruct (Z.gtb_spec len fromlen); lia|].
    rewrite H, Ascii.eqb_refl. reflexivity. }
  rewrite Hrest. cbn [fst snd]. rewrite app_nil_r.
  destruct (Z.eqb_spec (Z.of_nat k) 0); [lia | reflexivity].
Qed.

Ltac check_plain_bytes :=
  let j := fresh "j" in
  let Hj := fresh "Hj" in
  intros j Hj;
  repeat (destruct j as [|j];
          [first [lia
                 | split; [vm_compute; discriminate
                          | split; [vm_compute; reflexivity
                                   | vm_compute; discriminate]]]
          | try lia]).

Lemma print_host_copies_plain_text_witness :
  print_host isprint_C (ptr_of (chars "alice-pc"%string)) 8 12 =
    first_bytes (ptr_of (chars "alice-pc"%string)) 8 ++ spaces (12 - 8)
  /\ print_host isprint_C (ptr_of (chars "alice-pc"%string)) 8 5 =
    first_bytes (ptr_of (chars "alice-pc"%string)) 5 ++ spaces (5 - 5).
Proof.
  split.
  - apply (print_host_copies_plain_text isprint_C
             (ptr_of (chars "alice-pc"%string)) 8 12 8);
      [lia | lia | lia | check_plain_bytes | left; reflexivity].
  - apply (print_host_copies_plain_text isprint_C
             (ptr_of (chars "alice-pc"%string)) 8 5 5);
      [lia | lia | lia | check_plain_bytes | right; left; reflexivity].
Defined.

(** X3: when [k] plain bytes are followed, within the source and the
    width, by a byte that is a space or unprintable and not NUL,
    [print_host] writes the [k] bytes, one dash in place of that byte,
    and nothing more of the source. *)
Theorem print_host_dash_ends_text (isprint : ascii -> bool) (host : cptr)
    (len fromlen : Z) (k : nat) :
  Z.of_nat k < len -> Z.of_nat k < fromlen ->
  (forall j, (j < k)%nat -> plain_byte isprint (host j)) ->
  host k <> NUL ->
  isprint (host k) = false \/ host k = " "%char ->
  print_host isprint host len fromlen =
  first_bytes host k ++ "-"%char :: spaces (fromlen - Z.of_nat k - 1).
Proof.
  intros Hlen Hfrom Hrun Hnul Hbad. unfold print_host, first_bytes.
  set (len' := if len >? fromlen then fromlen else len).
  assert (Hk : (S k <= Z.to_nat len')%nat).
  { subst len'. destruct (Z.gtb_spec len fromlen); lia. }
  rewrite (print_host_loop_run isprint host k _ 0 0)
    by (try lia; intros j Hj; apply Hrun; lia).
  cbn [Nat.add Z.add].
  destruct (Z.to_nat len' - k)%nat eqn:En; [lia|]. cbn [print_host_loop].
  apply Ascii.eqb_neq in Hnul. rewrite Hnul.
  assert (Hb : isprint (host k) && negb (Ascii.eqb (host k) " ") = false).
  { destruct Hbad as [H | H]; rewrite H; [reflexivity|].
    rewrite Ascii.eqb_refl. apply andb_false_r. }
  rewrite Hb. cbn [fst snd].
  destruct (Z.eqb_spec (Z.of_nat k + 1) 0); [lia|].
  rewrite <- app_assoc. cbn [app]. do 3 f_equal. lia.
Qed.

Lemma print_host_dash_ends_text_witness :
  print_host isprint_C (ptr_of garbled_host) 256 16 =
  first_bytes (ptr_of garbled_host) 2 ++ "-"%char :: spaces (16 - 2 - 1).
Proof.
  apply (print_host_dash_ends_text isprint_C (ptr_of garbled_host) 256 16 2);
    [lia | lia | check_plain_bytes | vm_compute; discriminate
    | left; reflexivity].
Defined.

(** X4: when the source has no byte to offer, because [len] is not
    positive or its first byte is NUL, [print_host] writes one dash and
    pads it to [fromlen]. *)
Theorem print_host_empty_source (isprint : ascii -> bool) (host : cptr)
    (len fromlen : Z) :
  len <= 0 \/ host O = NUL ->
  print_host isprint host len fromlen = "-"%char :: spaces (fromlen - 1).
Proof.
  intros Hempty. unfold print_host.
  set (len' := if len >? fromlen then fromlen else len).
  assert (Hloop : print_host_loop isprint host (Z.to_nat len') 0 0 = ([], 0)).
  { destruct (Z.to_nat len') eqn:En; [reflexivity|]. cbn [print_host_loop].
    destruct Hempty as [H | H].
    - subst len'. destruct (Z.gtb_spec len fromlen); lia.
    - rewrite H, Ascii.eqb_refl. reflexivity. }
  rewrite Hloop. reflexivity.
Qed.

Lemma print_host_empty_source_witness :
  print_host isprint_C (ptr_of []) 0 16 = "-"%char :: spaces (16 - 1).
Proof.
  apply print_host_empty_source. left. lia.
Defined.

Section PartFacts.

Variable isprint : ascii -> bool.

Lemma put_printable_chars (host : cptr) (rounds i : nat) (len restlen : Z) :
  Forall (column_char isprint)
    (fst (put_printable isprint host rounds i len restlen)).
Proof.
  revert i len restlen. induction rounds as [|r IH]; intros i len restlen;
    cbn [put_printable]; [constructor|].
  destruct ((len >? 0) && isprint (host i) && negb (Ascii.eqb (host i) " "))
    eqn:E; [|constructor].
  specialize (IH (S i) (len - 1) (restlen - 1)).
  destruct (put_printable isprint host r (S i) (len - 1) (restlen - 1)).
  cbn [fst] in *. constructor; [|exact IH].
  apply andb_true_iff in E. destruct E as [E _].
  apply andb_true_iff in E. right. right. apply E.
Qed.

Lemma print_part_chars (host : cptr) (i : nat) (len restlen : Z) :
  Forall (column_char isprint) (fst (print_part isprint host i len restlen)).
Proof.
  unfold print_part.
  pose proof (put_printable_chars host
                (Z.to_nat (if len >? restlen then restlen else len)) i
                (if len >? restlen then restlen else len) restlen) as H.
  destruct (put_printable isprint host _ i _ restlen) as [out [[i' l'] r']].
  cbn [fst] in H.
  destruct ((l' >? 0) && negb (Ascii.eqb (host i') NUL)); cbn [fst];
    [|exact H].
  apply Forall_app. split; [exact H | repeat constructor].
Qed.

End PartFacts.

(** X5: [print_display_or_interface] never writes a byte that [isprint]
    rejects: every character of its output is printable, a dash or a
    space. *)
Theorem print_display_or_interface_output_is_printable
    (isprint : ascii -> bool) (host : cptr) (len restlen : Z) :
  Forall (column_char isprint)
    (print_display_or_interface isprint host len restlen).
Proof.
  unfold print_display_or_interface.
  assert (Hpart : forall i l,
    Forall (column_char isprint)
      (let (out, r) := print_part isprint host i l restlen in
       out ++ spaces r)).
  { intros i l. pose proof (print_part_chars isprint host i l restlen) as H.
    destruct (print_part isprint host i l restlen). cbn [fst] in H.
    apply Forall_app. split; [exact H | apply spaces_chars]. }
  assert (Hnone : Forall (column_char isprint) ([] ++ spaces restlen))
    by apply spaces_chars.
  repeat match goal with
         | |- context [if ?b then _ else _] =>
             lazymatch b with
             | context [if _ then _ else _] => fail
             | _ => destruct b
             end
         end; auto.
Qed.

(** X6: [print_display_or_interface] writes exactly [restlen] characters
    when [restlen] is positive, and none otherwise. *)
Theorem print_display_or_interface_fills_rest (isprint : ascii -> bool)
    (host : cptr) (len restlen : Z) :
  Z.of_nat (length (print_display_or_interface isprint host len restlen)) =
  Z.max 0 restlen.
Proof.
  destruct (Z.leb_spec restlen 0) as [L|G].
  - unfold print_display_or_interface.
    destruct (Z.leb_spec restlen 0); [cbn; lia | lia].
  - rewrite print_display_or_interface_length; lia.
Qed.

(** X7: with nothing to show, [print_display_or_interface] writes only
    padding.  That is so when the search for a colon ends at offset [d]
    at the end of the field or on an unprintable byte; and when, after a
    first colon at [d] and a second at [t], the search for ['%'] ends at
    offset [k] in the same way. *)
Theorem print_display_or_interface_only_padding (isprint : ascii -> bool)
    (host : cptr) (len restlen : Z) (d : nat) :
  (d <= field_end len)%nat ->
  passes isprint ":" host 0 d ->
  (d = field_end len \/ (isprint (host d) = false /\ host d <> ":"%char) ->
   print_display_or_interface isprint host len restlen = spaces restlen)
  /\ (forall t k : nat,
        host d = ":"%char ->
        (d < t < field_end len)%nat -> host t = ":"%char ->
        passes isprint ":" host (S d) t ->
        (t <= k <= field_end len)%nat ->
        passes isprint "%" host t k ->
        k = field_end len \/ (isprint (host k) = false /\ host k <> "%"%char) ->
        print_display_or_interface isprint host len restlen = spaces restlen).
Proof.
  intros Hd Hpass0.
  assert (Hnonpos : restlen <= 0 ->
            print_display_or_interface isprint host len restlen
            = spaces restlen).
  { intros L. unfold print_display_or_interface.
    destruct (Z.leb_spec restlen 0); [|lia]. now rewrite spaces_nonpos. }
  split.
  - intros Hstop. destruct (Z.leb_spec restlen 0) as [L|G]; [auto|].
    unfold print_display_or_interface.
    destruct (Z.leb_spec restlen 0) as [|_]; [lia|].
    assert (Hdisp : scan_until isprint ":" host (field_end len) 0 = d).
    { apply scan_until_stops; [lia | exact Hpass0 |].
      destruct Hstop as [H | [H _]]; [left; lia | right; right; exact H]. }
    rewrite Hdisp.
    assert (Hno : (d <? field_end len)%nat && Ascii.eqb (host d) ":" = false).
    { destruct Hstop as [-> | [_ H]].
      - rewrite Nat.ltb_irrefl. reflexivity.
      - apply Ascii.eqb_neq in H. rewrite H. apply andb_false_r. }
    rewrite Hno. reflexivity.
  - intros t k Hhd Ht Hht Hpass Hk Hpassk Hstop.
    destruct (Z.leb_spec restlen 0) as [L|G]; [auto|].
    unfold print_display_or_interface.
    destruct (Z.leb_spec restlen 0) as [|_]; [lia|].
    assert (Hdisp : scan_until isprint ":" host (field_end len) 0 = d).
    { apply scan_until_stops; [lia | exact Hpass0 | right; left; exact Hhd]. }
    assert (Htmp : scan_until isprint ":" host (field_end len - (d + 1)) (d + 1)
                   = t).
    { apply scan_until_stops; [lia | | right; left; exact Hht].
      replace (d + 1)%nat with (S d) by lia. exact Hpass. }
    assert (Hpct : scan_until isprint "%" host (field_end len - t) t = k).
    { apply scan_until_stops; [lia | exact Hpassk |].
      destruct Hstop as [H | [H _]]; [left; lia | right; right; exact H]. }
    rewrite Hdisp, Hhd, Ascii.eqb_refl, Htmp, Hht, Ascii.eqb_refl, Hpct.
    replace (d <? field_end len)%nat with true
      by (symmetry; apply Nat.ltb_lt; lia).
    replace (field_end len <=? t)%nat with false
      by (symmetry; apply Nat.leb_gt; lia).
    cbn [andb orb negb].
    assert (Hno : (k <? field_end len)%nat && Ascii.eqb (host k) "%" = false).
    { destruct Hstop as [-> | [_ H]].
      - rewrite Nat.ltb_irrefl. reflexivity.
      - apply Ascii.eqb_neq in H. rewrite H. apply andb_false_r. }
    rewrite Hno. reflexivity.
Qed.

Lemma print_display_or_interface_only_padding_witness :
  print_display_or_interface isprint_C (ptr_of (chars "myhost"%string)) 256 6 =
    spaces 6
  /\ print_display_or_interface isprint_C (ptr_of (chars "fe80::1"%string))
       256 9 = spaces 9.
Proof.
  split.
  - destruct (print_display_or_interface_only_padding isprint_C
                (ptr_of (chars "myhost"%string)) 256 6 6) as [Hnone _].
    + cbn. lia.
    + check_passes.
    + apply Hnone. right. split; [reflexivity | discriminate].
  - destruct (print_display_or_interface_only_padding isprint_C
                (ptr_of (chars "fe80::1"%string)) 256 9 4) as [_ Hnone].
    + cbn. lia.
    + check_passes.
    + apply (Hnone 5%nat 7%nat).
      * reflexivity.
      * cbn. lia.
      * reflexivity.
      * check_passes.
      * cbn. lia.
      * check_passes.
      * right. split; [reflexivity | discriminate].
Defined.

(** X8: with a positive [fromlen], [print_from] writes exactly [fromlen]
    characters, whichever of its branches runs. *)
Theorem print_from_fills_width (isprint : ascii -> bool) (UT_HOSTSIZE : Z)
    (IN6_IS_ADDR_V4MAPPED : Z * Z * Z * Z -> bool)
    (inet_ntop_AF_INET : Z -> Z -> option (list ascii))
    (inet_ntop_AF_INET6 : Z * Z * Z * Z -> Z -> option (list ascii))
    (session : option (option (list ascii))) (u : option utmp_t)
    (ip_addresses : bool) (fromlen : Z) :
  0 < fromlen ->
  Z.of_nat (length (print_from isprint UT_HOSTSIZE IN6_IS_ADDR_V4MAPPED
                      inet_ntop_AF_INET inet_ntop_AF_INET6
                      session u ip_addresses fromlen)) = fromlen.
Proof.
  apply print_from_length.
Qed.

Lemma print_from_fills_width_witness :
  Z.of_nat (length (print_from isprint_C 256 never_v4mapped ntop4_sample
                      ntop6_none None (Some named_entry) true 24)) = 24.
Proof.
  apply (print_from_fills_width isprint_C 256 never_v4mapped ntop4_sample
           ntop6_none None (Some named_entry) true 24).
  lia.
Defined.

(** * Further properties of the scan *)

Section ScanFacts.

Variable ignoreuser : bool.
Variable uid : Z.
Variable line : Z.
Variable ut_pid : Z.

(** A process that is neither the login process nor on the terminal
    changes nothing. *)
Lemma loop_body_stranger (st : scan) (p : pids_stack) :
  concerns line ut_pid p = false ->
  loop_body ignoreuser uid line ut_pid st p = st.
Proof.
  unfold concerns. intros H. apply orb_false_iff in H. destruct H as [Hl Ht].
  unfold loop_body, leader_step. rewrite Hl, Ht. reflexivity.
Qed.

Lemma scan_procs_filter_concerns (reap : list pids_stack) (st : scan) :
  scan_procs ignoreuser uid line ut_pid st (filter (concerns line ut_pid) reap)
  = scan_procs ignoreuser uid line ut_pid st reap.
Proof.
  revert st. induction reap as [|p reap IH]; intros st; [reflexivity|].
  cbn [filter]. destruct (concerns line ut_pid p) eqn:E.
  - rewrite !scan_procs_cons. apply IH.
  - rewrite scan_procs_cons, loop_body_stranger by exact E. apply IH.
Qed.

(** The first process that concerns the scan becomes the candidate. *)
Lemma loop_body_first_concerned (st : scan) (p : pids_stack) :
  best_time st = 0 -> secondbest_time st = 0 ->
  is_placeholder (cmdline st) = true ->
  concerns line ut_pid p = true ->
  candidate (loop_body ignoreuser uid line ut_pid st p) =
  candidate_of (cmdline st) p.
Proof.
  intros Hb Hs Hph Hc. unfold concerns in Hc.
  assert (Hw : last_writer ignoreuser uid line ut_pid ByCaller st p
               <> ByCaller).
  { unfold last_writer.
    destruct (leader_writes ut_pid st p) eqn:El.
    - destruct (EU_TTY p =? line); cbn [negb]; [|discriminate].
      destruct (filter_writes _ _ _ p); [discriminate|].
      destruct (interim_writes _ p); discriminate.
    - unfold leader_writes in El. rewrite Hb, Z.eqb_refl, andb_true_r in El.
      rewrite El in Hc. cbn [orb] in Hc. rewrite Hc. cbn [negb].
      destruct (filter_writes _ _ _ p); [discriminate|].
      assert (Hi : interim_writes (add_jcpu (leader_step ut_pid st p) p) p
                   = true).
      { unfold interim_writes, interim_taken, leader_step. rewrite El.
        cbn [add_jcpu set_jcpu secondbest_time cmdline].
        rewrite Hs, Hph. reflexivity. }
      rewrite Hi. discriminate. }
  destruct (labelled_iteration ignoreuser uid line ut_pid st p ByCaller)
    as [(E & _) | [(_ & H & _) | [(_ & _ & H & _) | (_ & _ & _ & H & _)]]];
    [contradiction | auto..].
Qed.

(** From the initial state: the candidate is a process already visited
    as soon as one of them concerned the scan. *)
Lemma candidate_written_run (cmdline0 : list ascii) (pid0 : Z)
    (reap : list pids_stack) :
  is_placeholder cmdline0 = true ->
  let st := scan_procs ignoreuser uid line ut_pid (scan_init cmdline0 pid0)
              reap in
  (st = scan_init cmdline0 pid0
   /\ existsb (concerns line ut_pid) reap = false)
  \/ (exists p, In p reap /\ concerns line ut_pid p = true
                /\ candidate st = candidate_of cmdline0 p).
Proof.
  intros Hph. induction reap as [|p reap IH] using rev_ind.
  - left. cbn. auto.
  - cbv zeta in *. rewrite scan_procs_app. cbn [scan_procs fold_left].
    set (st := scan_procs ignoreuser uid line ut_pid (scan_init cmdline0 pid0)
                 reap) in *.
    destruct (concerns line ut_pid p) eqn:E.
    + right. destruct IH as [(Hst & Hnone) | (q & Hq & Hcq & Hc)].
      * exists p. split; [apply in_or_app; right; now left|].
        split; [exact E|].
        rewrite Hst. apply loop_body_first_concerned; auto.
      * destruct (candidate_loop_body ignoreuser uid line ut_pid st p)
          as [E' | E']; rewrite E'.
        -- exists q. split; [apply in_or_app; now left | auto].
        -- exists p. split; [apply in_or_app; right; now left|].
           split; [exact E|]. apply candidate_of_rebase.
           unfold candidate, candidate_of in Hc. injection Hc as _ _ ->.
           apply skipn_strncpy.
    + rewrite loop_body_stranger by exact E.
      destruct IH as [(Hst & Hnone) | (q & Hq & Hcq & Hc)].
      * left. split; [exact Hst|]. rewrite existsb_app, Hnone.
        cbn. rewrite E. reflexivity.
      * right. exists q. split; [apply in_or_app; now left | auto].
Qed.

End ScanFacts.

(** X9: processes that are neither the login process nor on the terminal
    have no influence: [find_best_proc] returns the same on the table and
    on the table without them. *)
Theorem find_best_proc_ignores_strangers (ignoreuser : bool)
    (lookup : option Z) (line ut_pid : Z) (cmdline0 : list ascii) (pid0 : Z)
    (reap : list pids_stack) :
  find_best_proc ignoreuser lookup line ut_pid cmdline0 pid0
    (filter (concerns line ut_pid) reap) =
  find_best_proc ignoreuser lookup line ut_pid cmdline0 pid0 reap.
Proof.
  unfold find_best_proc.
  destruct (negb ignoreuser); [destruct lookup; [|reflexivity]|];
    apply scan_procs_filter_concerns.
Qed.

(** X10: let [cmdline] hold the placeholder at the call and let the user
    be known (or [ignoreuser] be on).  If no process is the login process
    or on the terminal, [find_best_proc] returns 0 and leaves [pid] and
    [cmdline] as they were, with zero times.  Otherwise the PID, the tics
    and the command line it returns are those of one process of the
    table, which is the login process or on the terminal. *)
Theorem candidate_is_a_table_process (ignoreuser : bool) (lookup : option Z)
    (line ut_pid : Z) (cmdline0 : list ascii) (pid0 : Z)
    (reap : list pids_stack) :
  is_placeholder cmdline0 = true ->
  ignoreuser = true \/ lookup <> None ->
  let r := find_best_proc ignoreuser lookup line ut_pid cmdline0 pid0 reap in
  (existsb (concerns line ut_pid) reap = false ->
   r = scan_init cmdline0 pid0)
  /\ (existsb (concerns line ut_pid) reap = true ->
      exists p, In p reap /\ concerns line ut_pid p = true
                /\ candidate r = candidate_of cmdline0 p).
Proof.
  intros Hph Hu r. subst r.
  destruct (find_best_proc_scans _ _ line ut_pid cmdline0 pid0 reap Hu)
    as [uid ->].
  destruct (candidate_written_run ignoreuser uid line ut_pid cmdline0 pid0
              reap Hph) as [(Hst & Hnone) | Hw].
  - split; [intros _; exact Hst | intros H; congruence].
  - split; [|intros _; exact Hw].
    intros Hnone. destruct Hw as (p & Hp & Hc & _).
    assert (existsb (concerns line ut_pid) reap = true)
      by (apply existsb_exists; eauto).
    congruence.
Qed.

Lemma candidate_is_a_table_process_witness :
  (existsb (concerns pts0 4242) [cron_proc] = false ->
   find_best_proc false (Some 1000) pts0 4242 dash_buffer (-1) [cron_proc]
   = scan_init dash_buffer (-1))
  /\ exists p, In p [bash_proc; vim_proc; cron_proc]
               /\ concerns pts0 700 p = true
               /\ candidate (find_best_proc false (Some 1000) pts0 700
                               dash_buffer (-1)
                               [bash_proc; vim_proc; cron_proc])
                  = candidate_of dash_buffer p.
Proof.
  split.
  - apply (candidate_is_a_table_process false (Some 1000) pts0 4242
             dash_buffer (-1) [cron_proc]);
      [reflexivity | right; discriminate].
  - apply (candidate_is_a_table_process false (Some 1000) pts0 700
             dash_buffer (-1) [bash_proc; vim_proc; cron_proc]);
      [reflexivity | right; discriminate | reflexivity].
Defined.

Lemma tty_tics_permutation (line : Z) (l l' : list pids_stack) :
  Permutation l l' -> tty_tics line l = tty_tics line l'.
Proof.
  unfold tty_tics.
  induction 1 as [|p l l' _ IH|p q l|l l' l'' _ IH1 _ IH2]; cbn [filter].
  - reflexivity.
  - destruct (on_line line p); cbn [map fold_right]; now rewrite IH.
  - destruct (on_line line p), (on_line line q); cbn [map fold_right]; lia.
  - now rewrite IH1.
Qed.

Lemma existsb_permutation (f : pids_stack -> bool) (l l' : list pids_stack) :
  Permutation l l' -> existsb f l = existsb f l'.
Proof.
  induction 1 as [|p l l' _ IH|p q l|l l' l'' _ IH1 _ IH2]; cbn [existsb].
  - reflexivity.
  - now rewrite IH.
  - now destruct (f p), (f q).
  - now rewrite IH1.
Qed.

Lemma found_utpid_scan_value (ignoreuser : bool) (uid line ut_pid : Z)
    (reap : list pids_stack) (st : scan) :
  found_utpid (scan_procs ignoreuser uid line ut_pid st reap) =
  if existsb (fun p => EU_TGID p =? ut_pid) reap then 1 else found_utpid st.
Proof.
  revert st. induction reap as [|p reap IH]; intros st; [reflexivity|].
  rewrite scan_procs_cons, IH, found_utpid_loop_body. cbn [existsb].
  destruct (EU_TGID p =? ut_pid); cbn [orb]; [|reflexivity].
  now destruct (existsb _ reap).
Qed.

(** X11: the return value and [jcpu] do not depend on the order in which
    the table lists the processes. *)
Theorem totals_ignore_table_order (ignoreuser : bool) (lookup : option Z)
    (line ut_pid : Z) (cmdline0 : list ascii) (pid0 : Z)
    (reap reap' : list pids_stack) :
  Permutation reap reap' ->
  found_utpid (find_best_proc ignoreuser lookup line ut_pid cmdline0 pid0 reap)
  = found_utpid
      (find_best_proc ignoreuser lookup line ut_pid cmdline0 pid0 reap')
  /\ jcpu (find_best_proc ignoreuser lookup line ut_pid cmdline0 pid0 reap)
     = jcpu (find_best_proc ignoreuser lookup line ut_pid cmdline0 pid0 reap').
Proof.
  intros Hperm. unfold find_best_proc.
  assert (Hgo : forall uid,
    found_utpid (scan_procs ignoreuser uid line ut_pid
                   (scan_init cmdline0 pid0) reap)
    = found_utpid (scan_procs ignoreuser uid line ut_pid
                     (scan_init cmdline0 pid0) reap')
    /\ jcpu (scan_procs ignoreuser uid line ut_pid
               (scan_init cmdline0 pid0) reap)
       = jcpu (scan_procs ignoreuser uid line ut_pid
                 (scan_init cmdline0 pid0) reap')).
  { intros uid. split.
    - rewrite !found_utpid_scan_value.
      now rewrite (existsb_permutation _ reap reap' Hperm).
    - rewrite !jcpu_scan_procs by apply scan_init_jcpu_reduced.
      now rewrite (tty_tics_permutation line reap reap' Hperm). }
  destruct (negb ignoreuser); [destruct lookup; [|split; reflexivity]|];
    apply Hgo.
Qed.

Lemma totals_ignore_table_order_witness :
  jcpu (find_best_proc false (Some 1000) pts0 650 dash_buffer (-1)
          [login_proc; vim_proc])
  = jcpu (find_best_proc false (Some 1000) pts0 650 dash_buffer (-1)
            [vim_proc; login_proc]).
Proof.
  apply (totals_ignore_table_order false (Some 1000) pts0 650 dash_buffer (-1)
           [login_proc; vim_proc] [vim_proc; login_proc]).
  apply perm_swap.
Defined.

Section ForegroundFacts.

Variable ignoreuser : bool.
Variable uid : Z.
Variable line : Z.
Variable ut_pid : Z.

(** One labelled iteration, seen from the foreground block. *)
Lemma last_writer_foreground (st : scan) (p : pids_stack) (w : writer) :
  let st' := loop_body ignoreuser uid line ut_pid st p in
  let w' := last_writer ignoreuser uid line ut_pid w st p in
  (w' = w /\ candidate st' = candidate st /\ best_time st' = best_time st)
  \/ (w' = ByFilter /\ eligible ignoreuser uid line p = true
      /\ candidate st' = candidate_of (cmdline st) p
      /\ best_time st' = EU_START p)
  \/ w' = ByLeaderSeed \/ w' = ByInterim.
Proof.
  intros st' w'. subst st' w'.
  destruct (labelled_iteration ignoreuser uid line ut_pid st p w)
    as [H | [(Hw & _) | [(Hw & _) | (Hw & _ & H)]]]; auto.
Qed.

(** The invariant behind X12. *)
Lemma foreground_inv_run (cmdline0 : list ascii) (pid0 : Z)
    (reap : list pids_stack) :
  Forall ull_items_ok reap ->
  let sw := labelled_scan ignoreuser uid line ut_pid
              (scan_init cmdline0 pid0) reap in
  0 <= best_time (fst sw)
  /\ skipn MAX_CMD_WIDTH (cmdline (fst sw)) = skipn MAX_CMD_WIDTH cmdline0
  /\ (forall p, In p reap -> eligible ignoreuser uid line p = true ->
                EU_START p <= best_time (fst sw))
  /\ (snd sw = ByFilter ->
      exists q, In q reap /\ eligible ignoreuser uid line q = true
                /\ candidate (fst sw) = candidate_of cmdline0 q
                /\ best_time (fst sw) = EU_START q).
Proof.
  induction reap as [|p reap IH] using rev_ind; intros Hok.
  - cbn. repeat split; try lia; try tauto; discriminate.
  - apply Forall_app in Hok. destruct Hok as [Hok Hp].
    apply Forall_inv in Hp. destruct Hp as [Hstart _].
    specialize (IH Hok). cbv zeta in *.
    unfold labelled_scan in *. rewrite fold_left_app. cbn [fold_left].
    destruct (fold_left (labelled_body ignoreuser uid line ut_pid) reap
                (scan_init cmdline0 pid0, ByCaller)) as [st w].
    unfold labelled_body. cbn [fst snd] in *.
    destruct IH as (Hb & Htail & Hmax & Hfil).
    destruct (best_time_step ignoreuser uid line ut_pid st p Hb)
      as [Hmono Hel]; [lia|].
    split; [lia|]. split.
    { destruct (candidate_loop_body ignoreuser uid line ut_pid st p)
        as [E | E]; unfold candidate, candidate_of in E;
        injection E as _ _ ->;
        [exact Htail | rewrite skipn_strncpy; exact Htail]. }
    split.
    { intros q Hq Helq. apply in_app_or in Hq. destruct Hq as [Hq | [<- | []]].
      - specialize (Hmax q Hq Helq). lia.
      - auto. }
    intros Hw.
    destruct (last_writer_foreground st p w)
      as [(Ew & Ec & Ebt) | [(_ & Help & Ec & Ebt) | [E | E]]];
      try congruence.
    + rewrite Ew in Hw. destruct (Hfil Hw) as (q & Hq & Helq & Hcq & Hbq).
      exists q. split; [apply in_or_app; now left|].
      split; [exact Helq|]. split; congruence.
    + exists p. split; [apply in_or_app; right; now left|].
      split; [exact Help|]. split; [|exact Ebt].
      rewrite Ec. apply candidate_of_rebase, Htail.
Qed.

End ForegroundFacts.

(** X12: when the last block to write the candidate was the one behind
    the foreground test, the process returned is on the terminal, of the
    user (any user with [ignoreuser]) and in the foreground group of its
    tty, and no process of the table with these three properties started
    later than it. *)
Theorem foreground_choice_is_newest (ignoreuser : bool) (uid line ut_pid : Z)
    (cmdline0 : list ascii) (pid0 : Z) (reap : list pids_stack) :
  Forall ull_items_ok reap ->
  candidate_writer ignoreuser (Some uid) line ut_pid cmdline0 pid0 reap
  = ByFilter ->
  exists q,
    In q reap /\ eligible ignoreuser uid line q = true
    /\ candidate (find_best_proc ignoreuser (Some uid) line ut_pid
                    cmdline0 pid0 reap) = candidate_of cmdline0 q
    /\ forall p, In p reap -> eligible ignoreuser uid line p = true ->
                 EU_START p <= EU_START q.
Proof.
  intros Hok Hw. unfold candidate_writer in Hw. unfold find_best_proc.
  assert (Hgo : forall u,
    (forall p, eligible ignoreuser u line p = eligible ignoreuser uid line p) ->
    snd (labelled_scan ignoreuser u line ut_pid (scan_init cmdline0 pid0) reap)
      = ByFilter ->
    exists q,
      In q reap /\ eligible ignoreuser uid line q = true
      /\ candidate (scan_procs ignoreuser u line ut_pid
                      (scan_init cmdline0 pid0) reap) = candidate_of cmdline0 q
      /\ forall p, In p reap -> eligible ignoreuser uid line p = true ->
                   EU_START p <= EU_START q).
  { intros u Hsame Hlab.
    destruct (foreground_inv_run ignoreuser u line ut_pid cmdline0 pid0 reap
                Hok) as (_ & _ & Hmax & Hfil).
    unfold labelled_scan in *. rewrite labelled_scan_fst in *.
    destruct (Hfil Hlab) as (q & Hq & Helq & Hcq & Hbq).
    exists q. split; [exact Hq|]. split; [now rewrite <- Hsame|].
    split; [exact Hcq|]. intros p Hp Help. rewrite <- Hbq.
    apply Hmax; [exact Hp | now rewrite Hsame]. }
  destruct ignoreuser; cbn [negb] in *.
  - apply Hgo; [|exact Hw]. intros p. reflexivity.
  - apply Hgo; [|exact Hw]. intros p. reflexivity.
Qed.

Lemma foreground_choice_is_newest_witness :
  exists q,
    In q [bash_proc; vim_proc; cron_proc]
    /\ eligible false 1000 pts0 q = true
    /\ candidate (find_best_proc false (Some 1000) pts0 700 dash_buffer (-1)
                    [bash_proc; vim_proc; cron_proc])
       = candidate_of dash_buffer q
    /\ forall p, In p [bash_proc; vim_proc; cron_proc] ->
                 eligible false 1000 pts0 p = true ->
                 EU_START p <= EU_START q.
Proof.
  apply (foreground_choice_is_newest false 1000 pts0 700 dash_buffer (-1)
           [bash_proc; vim_proc; cron_proc]).
  - exact sample_items_ok.
  - vm_compute. reflexivity.
Defined.

(** * The time column *)

Lemma pad_left_length (fill : ascii) (w : nat) (text : list ascii) :
  length (pad_left fill w text) = Nat.max w (length text).
Proof.
  unfold pad_left. rewrite length_app, repeat_length. lia.
Qed.

Lemma dec_digits_nonempty (r : nat) (n : Z) :
  (1 <= length (dec_digits (S r) n))%nat.
Proof.
  cbn [dec_digits]. destruct (n <? 10); [cbn; lia|].
  rewrite length_app. cbn. lia.
Qed.

(** More rounds than digits change nothing: [decimal] has enough. *)
Lemma dec_digits_enough (r r' : nat) (n : Z) :
  0 <= n < 2 ^ Z.of_nat r -> (r <= r')%nat ->
  dec_digits (S r') n = dec_digits (S r) n.
Proof.
  revert r' n. induction r as [|r IH]; intros r' n Hn Hr.
  - cbn [dec_digits]. change (2 ^ Z.of_nat 0) with 1 in Hn.
    destruct (Z.ltb_spec n 10); [reflexivity | lia].
  - destruct r' as [|r']; [lia|].
    change (dec_digits (S (S r')) n)
      with (if n <? 10 then [digit n]
            else dec_digits (S r') (n / 10) ++ [digit (n mod 10)]).
    change (dec_digits (S (S r)) n)
      with (if n <? 10 then [digit n]
            else dec_digits (S r) (n / 10) ++ [digit (n mod 10)]).
    destruct (Z.ltb_spec n 10); [reflexivity|].
    rewrite (IH r' (n / 10)); [reflexivity| |lia].
    rewrite Nat2Z.inj_succ, Z.pow_succ_r in Hn by lia.
    split; [apply Z.div_pos; lia|].
    apply Z.div_lt_upper_bound; lia.
Qed.

Lemma decimal_length (n : Z) :
  0 <= n ->
  (n < 10 -> length (decimal n) = 1%nat)
  /\ (10 <= n < 100 -> length (decimal n) = 2%nat)
  /\ (100 <= n -> (3 <= length (decimal n))%nat).
Proof.
  intros Hn. unfold decimal. split; [|split].
  - intros H. cbn [dec_digits].
    destruct (Z.ltb_spec n 10); [reflexivity | lia].
  - intros H.
    assert (3 <= Z.log2 n) by (apply Z.log2_le_pow2; lia).
    destruct (Z.to_nat (Z.log2 n)) as [|f] eqn:E; [lia|].
    cbn [dec_digits].
    destruct (Z.ltb_spec n 10); [lia|].
    destruct (Z.ltb_spec (n / 10) 10) as [_|G]; [reflexivity|].
    assert (n / 10 < 10) by (apply Z.div_lt_upper_bound; lia). lia.
  - intros H.
    assert (6 <= Z.log2 n) by (apply Z.log2_le_pow2; lia).
    destruct (Z.to_nat (Z.log2 n)) as [|[|f]] eqn:E; [lia | lia |].
    change (dec_digits (S (S (S f))) n)
      with (if n <? 10 then [digit n]
            else (if n / 10 <? 10 then [digit (n / 10)]
                  else dec_digits (S f) (n / 10 / 10)
                         ++ [digit ((n / 10) mod 10)])
                 ++ [digit (n mod 10)]).
    destruct (Z.ltb_spec n 10); [lia|].
    assert (10 <= n / 10) by (apply Z.div_le_lower_bound; lia).
    destruct (Z.ltb_spec (n / 10) 10); [lia|].
    pose proof (dec_digits_nonempty f (n / 10 / 10)).
    rewrite !length_app. cbn [length]. lia.
Qed.

Lemma two_wide (fill : ascii) (n : Z) :
  0 <= n ->
  (n < 100 -> length (pad_left fill 2 (decimal n)) = 2%nat)
  /\ (100 <= n -> (3 <= length (pad_left fill 2 (decimal n)))%nat).
Proof.
  intros Hn. rewrite pad_left_length.
  destruct (decimal_length n Hn) as (H1 & H2 & H3).
  split; intros H.
  - destruct (Z.lt_ge_cases n 10); [rewrite H1 | rewrite H2]; lia.
  - specialize (H3 H). lia.
Qed.

(** X13: for a centisecond count between 0 and 99, [print_time_ival7]
    writes exactly 7 characters if and only if the interval is below 100
    days (a negative one included); from 100 days on it writes more than
    7 characters. *)
Theorem print_time_ival7_seven_wide (oldstyle : bool) (t centi_sec : Z) :
  0 <= centi_sec < 100 ->
  (length (print_time_ival7 oldstyle t centi_sec) = 7%nat
   <-> t < 100 * (24 * 60 * 60))
  /\ (100 * (24 * 60 * 60) <= t ->
      (7 < length (print_time_ival7 oldstyle t centi_sec))%nat).
Proof.
  intros Hc.
  enough (Hboth :
    (t < 100 * (24 * 60 * 60) ->
     length (print_time_ival7 oldstyle t centi_sec) = 7%nat)
    /\ (100 * (24 * 60 * 60) <= t ->
        (7 < length (print_time_ival7 oldstyle t centi_sec))%nat)).
  { destruct Hboth as [Hsmall Hbig]. split; [split|]; [|exact Hsmall|exact Hbig].
    intros Hl. apply Z.nle_gt. intros G. specialize (Hbig G). lia. }
  unfold print_time_ival7, fmt_2llu, fmt_02u.
  destruct (Z.ltb_spec t 0) as [Hneg | Hpos];
    [cbn; split; [reflexivity | lia]|].
  assert (Hdays : 0 <= t / (24 * 60 * 60)) by (apply Z.div_pos; lia).
  assert (Hhours : 0 <= t / (60 * 60)) by (apply Z.div_pos; lia).
  assert (Hmins : 0 <= t / 60) by (apply Z.div_pos; lia).
  assert (Hm60 : 0 <= (t / 60) mod 60 < 60) by (apply Z.mod_pos_bound; lia).
  assert (Hs60 : 0 <= (t mod UINT_RANGE) mod 60 < 60)
    by (apply Z.mod_pos_bound; lia).
  assert (Hcs : centi_sec mod UINT_RANGE = centi_sec)
    by (apply Z.mod_small; unfold UINT_RANGE; lia).
  rewrite Hcs. rewrite !Z.geb_leb.
  destruct (Z.leb_spec (48 * 60 * 60) t) as [Hd | Hd].
  { (* days *)
    destruct (two_wide " " (t / (24 * 60 * 60)) Hdays) as [Hsmall Hbig].
    assert (Hlen : length (" "%char :: pad_left " " 2
                             (decimal (t / (24 * 60 * 60)))
                             ++ chars "days"%string)
                   = (5 + length (pad_left " " 2
                                    (decimal (t / (24 * 60 * 60)))))%nat).
    { cbn [length]. rewrite length_app. cbn [length chars
        String.list_ascii_of_string]. lia. }
    destruct oldstyle; rewrite Hlen; split; intros H.
    - rewrite Hsmall; [reflexivity | apply Z.div_lt_upper_bound; lia].
    - assert (G : 100 <= t / (24 * 60 * 60))
        by (apply Z.div_le_lower_bound; lia).
      specialize (Hbig G). lia.
    - rewrite Hsmall; [reflexivity | apply Z.div_lt_upper_bound; lia].
    - assert (G : 100 <= t / (24 * 60 * 60))
        by (apply Z.div_le_lower_bound; lia).
      specialize (Hbig G). lia. }
  assert (Hlen4 : forall a b c,
    0 <= a < 100 -> 0 <= b < 100 ->
    forall sep : ascii,
    length (" "%char :: pad_left " " 2 (decimal a)
              ++ sep :: pad_left "0" 2 (decimal b) ++ [c]) = 7%nat).
  { intros a b c Ha Hb sep.
    destruct (two_wide " " a) as [Ha2 _]; [lia|].
    destruct (two_wide "0" b) as [Hb2 _]; [lia|].
    cbn [length]. rewrite length_app. cbn [length]. rewrite length_app.
    cbn [length]. rewrite Ha2, Hb2 by lia. reflexivity. }
  assert (Hh : 60 * 60 <= t -> 0 <= t / (60 * 60) < 100).
  { intros H. split; [lia|]. apply Z.div_lt_upper_bound; lia. }
  assert (Hm : t < 60 * 60 -> 0 <= t / 60 < 100).
  { intros H. split; [lia|]. apply Z.div_lt_upper_bound; lia. }
  rewrite !Z.gtb_ltb.
  split; [intros _ | intros G; lia].
  destruct oldstyle;
    destruct (Z.leb_spec (60 * 60) t);
    try (apply Hlen4; auto; lia);
    destruct (Z.ltb_spec 60 t);
    try (apply Hlen4; auto; lia); reflexivity.
Qed.

Lemma print_time_ival7_seven_wide_witness :
  length (print_time_ival7 false 4000 0) = 7%nat
  /\ (7 < length (print_time_ival7 false 8640000 0))%nat.
Proof.
  split.
  - apply (print_time_ival7_seven_wide false 4000 0); lia.
  - apply (print_time_ival7_seven_wide false 8640000 0); lia.
Defined.

(** * The terminal of the session *)

Section TtyFacts.

Variable stat : list ascii -> option stat_t.

Lemma not_absolute_skips (name : list ascii) :
  not_absolute stat name ->
  get_tty_device stat name = try_dev_paths stat name dev_paths.
Proof.
  unfold not_absolute, get_tty_device. intros [H | H].
  - apply Ascii.eqb_neq in H. now rewrite H.
  - destruct (Ascii.eqb (nth 0 name NUL) "/"); [now rewrite H | reflexivity].
Qed.

Lemma try_dev_paths_miss (name : list ascii) (paths : list (list ascii)) :
  Forall (no_chr_device stat name) paths ->
  try_dev_paths stat name paths = -1.
Proof.
  induction 1 as [|prefix rest Hp _ IH]; [reflexivity|].
  cbn [try_dev_paths]. unfold no_chr_device in Hp.
  destruct (stat (snprintf_32 prefix name)) as [st|]; [|exact IH].
  now rewrite Hp.
Qed.

Lemma try_dev_paths_hit (name : list ascii) (before after : list (list ascii))
    (prefix : list ascii) (st : stat_t) :
  Forall (no_chr_device stat name) before ->
  stat (snprintf_32 prefix name) = Some st -> st_is_chr st = true ->
  try_dev_paths stat name (before ++ prefix :: after) = int_of_dev (st_rdev st).
Proof.
  intros Hb Hs Hc. induction Hb as [|q rest Hq _ IH]; cbn [app try_dev_paths].
  - now rewrite Hs, Hc.
  - unfold no_chr_device in Hq.
    destruct (stat (snprintf_32 q name)) as [sq|]; [|exact IH].
    now rewrite Hq.
Qed.

(** Only the first 26 bytes of the name reach a path of at most 31. *)
Lemma snprintf_32_cut (prefix name : list ascii) :
  (5 <= length prefix <= 31)%nat ->
  snprintf_32 prefix name =
  prefix ++ firstn (31 - length prefix) (firstn 26 (cstr name)).
Proof.
  intros H. unfold snprintf_32.
  rewrite firstn_app, firstn_all2 by lia.
  rewrite firstn_firstn, Nat.min_l by lia. reflexivity.
Qed.

Lemma try_dev_paths_same_start (name name' : list ascii)
    (paths : list (list ascii)) :
  Forall (fun prefix => (5 <= length prefix <= 31)%nat) paths ->
  firstn 26 (cstr name) = firstn 26 (cstr name') ->
  try_dev_paths stat name paths = try_dev_paths stat name' paths.
Proof.
  intros Hp Hsame. induction Hp as [|prefix rest Hlen _ IH]; [reflexivity|].
  cbn [try_dev_paths].
  rewrite (snprintf_32_cut prefix name Hlen),
    (snprintf_32_cut prefix name' Hlen), Hsame, IH.
  reflexivity.
Qed.

End TtyFacts.

(** X14: when the name is not usable as an absolute path and none of
    "/dev/<name>", "/dev/tty<name>" and "/dev/pts/<name>" (each cut to 31
    bytes) is a character device, [get_tty_device] returns -1. *)
Theorem get_tty_device_not_found (stat : list ascii -> option stat_t)
    (name : list ascii) :
  not_absolute stat name ->
  Forall (no_chr_device stat name) dev_paths ->
  get_tty_device stat name = -1.
Proof.
  intros Habs Hnone. rewrite not_absolute_skips by exact Habs.
  now apply try_dev_paths_miss.
Qed.

Lemma get_tty_device_not_found_witness :
  get_tty_device sample_stat (chars "ttyS9"%string) = -1.
Proof.
  apply get_tty_device_not_found.
  - left. discriminate.
  - repeat constructor.
Defined.

(** X15: which device [get_tty_device] returns.  A name that starts with
    a slash and that [stat] accepts gives the [st_rdev] of that file,
    whatever its type.  Otherwise the three patterns are tried in the
    order "/dev/", "/dev/tty", "/dev/pts/", and the first that names a
    character device gives the result, whatever the later ones name. *)
Theorem get_tty_device_first_match (stat : list ascii -> option stat_t)
    (name : list ascii) (st : stat_t) :
  (nth 0 name NUL = "/"%char -> stat (cstr name) = Some st ->
   get_tty_device stat name = int_of_dev (st_rdev st))
  /\ (forall before after prefix,
       dev_paths = before ++ prefix :: after ->
       not_absolute stat name ->
       Forall (no_chr_device stat name) before ->
       stat (snprintf_32 prefix name) = Some st -> st_is_chr st = true ->
       get_tty_device stat name = int_of_dev (st_rdev st)).
Proof.
  split.
  - intros Hslash Hstat. unfold get_tty_device.
    now rewrite Hslash, Ascii.eqb_refl, Hstat.
  - intros before after prefix Hpaths Habs Hbefore Hstat Hchr.
    rewrite not_absolute_skips by exact Habs. rewrite Hpaths.
    now apply try_dev_paths_hit.
Qed.

Lemma get_tty_device_first_match_witness :
  get_tty_device sample_stat (chars "/dev/pts"%string) = int_of_dev 0
  /\ get_tty_device sample_stat (chars "0"%string) = int_of_dev 34816.
Proof.
  split.
  - apply (get_tty_device_first_match sample_stat (chars "/dev/pts"%string)
             {| st_is_chr := false; st_rdev := 0 |}); reflexivity.
  - apply (get_tty_device_first_match sample_stat (chars "0"%string)
             {| st_is_chr := true; st_rdev := 34816 |})
      with (before := [chars "/dev/"%string; chars "/dev/tty"%string])
           (after := []) (prefix := chars "/dev/pts/"%string).
    + reflexivity.
    + left. discriminate.
    + repeat constructor.
    + reflexivity.
    + reflexivity.
Defined.

(** X16: the paths are built in a buffer of 32 bytes, so for names that
    do not start with a slash only the first 26 bytes count: two such
    names that agree on them resolve to the same device. *)
Theorem get_tty_device_long_names (stat : list ascii -> option stat_t)
    (name name' : list ascii) :
  nth 0 name NUL <> "/"%char -> nth 0 name' NUL <> "/"%char ->
  firstn 26 (cstr name) = firstn 26 (cstr name') ->
  get_tty_device stat name = get_tty_device stat name'.
Proof.
  intros H H' Hsame.
  rewrite !not_absolute_skips by (left; assumption).
  apply try_dev_paths_same_start; [|exact Hsame].
  repeat constructor; cbn; lia.
Qed.

Lemma get_tty_device_long_names_witness :
  get_tty_device sample_stat (chars "abcdefghijklmnopqrstuvwxyz0123"%string)
  = get_tty_device sample_stat (chars "abcdefghijklmnopqrstuvwxyz"%string).
Proof.
  apply get_tty_device_long_names;
    [discriminate | discriminate | vm_compute; reflexivity].
Defined.

(** The tty name after the cleaning loop of [showinfo], by offset. *)
Lemma cstr_cleaned (isalnum : ascii -> bool) (ut_line : cptr) (n i : nat) :
  exists k,
    (k <= n)%nat
    /\ cstr (map (fun j => if tty_byte isalnum (ut_line j) then ut_line j
                           else NUL) (seq i n) ++ [NUL])
       = map ut_line (seq i k)
    /\ (forall j, (i <= j < i + k)%nat ->
                  tty_byte isalnum (ut_line j) = true /\ ut_line j <> NUL)
    /\ ((k < n)%nat ->
        tty_byte isalnum (ut_line (i + k)%nat) = false
        \/ ut_line (i + k)%nat = NUL).
Proof.
  revert i. induction n as [|n IH]; intros i.
  - exists O. split; [lia|]. split; [reflexivity|].
    split; [intros j Hj; lia | intros H; lia].
  - cbn [seq map app cstr].
    destruct (tty_byte isalnum (ut_line i)) eqn:Et.
    + destruct (Ascii.eqb (ut_line i) NUL) eqn:En.
      * exists O. rewrite Nat.add_0_r.
        split; [lia|]. split; [reflexivity|].
        split; [intros j Hj; lia|].
        intros _. right. now apply Ascii.eqb_eq.
      * destruct (IH (S i)) as (k & Hk & Hc & Hgood & Hstop).
        exists (S k). cbn [seq map]. rewrite Hc.
        split; [lia|]. split; [reflexivity|]. split.
        -- intros j Hj. destruct (Nat.eq_dec j i) as [->|Hne].
           ++ split; [exact Et | now apply Ascii.eqb_neq].
           ++ apply Hgood. lia.
        -- intros Hlt. replace (i + S k)%nat with (S i + k)%nat by lia.
           apply Hstop. lia.
    + change (Ascii.eqb NUL NUL) with true. cbn iota.
      exists O. rewrite Nat.add_0_r.
      split; [lia|]. split; [reflexivity|].
      split; [intros j Hj; lia|].
      intros _. left. exact Et.
Qed.

(** X17: the name that [showinfo] hands to [find_best_proc] is the
    longest run of bytes at the start of [ut_line], within [UT_LINESIZE],
    that are alphanumeric or slashes (and not NUL); in particular it holds
    no other byte and is at most [UT_LINESIZE] long. *)
Theorem clean_tty_keeps_leading_name (isalnum : ascii -> bool)
    (UT_LINESIZE : nat) (ut_line : cptr) :
  exists k,
    (k <= UT_LINESIZE)%nat
    /\ cstr (clean_tty isalnum UT_LINESIZE ut_line) = first_bytes ut_line k
    /\ (forall j, (j < k)%nat ->
                  tty_byte isalnum (ut_line j) = true /\ ut_line j <> NUL)
    /\ ((k < UT_LINESIZE)%nat ->
        tty_byte isalnum (ut_line k) = false \/ ut_line k = NUL).
Proof.
  destruct (cstr_cleaned isalnum ut_line UT_LINESIZE 0)
    as (k & Hk & Hc & Hgood & Hstop).
  exists k. split; [exact Hk|]. split; [exact Hc|]. split.
  - intros j Hj. apply Hgood. lia.
  - exact Hstop.
Qed.

(** * The WHAT column and the widths chosen by [main] *)

Lemma cstr_app_clean (l r : list ascii) :
  ~ In NUL l -> cstr (l ++ r) = l ++ cstr r.
Proof.
  induction l as [|c l IH]; intros Hl; [reflexivity|].
  cbn [app cstr]. destruct (Ascii.eqb c NUL) eqn:E.
  - apply Ascii.eqb_eq in E. exfalso. apply Hl. now left.
  - rewrite IH; [reflexivity|]. intros H. apply Hl. now right.
Qed.

Lemma cstr_idempotent (s : list ascii) : cstr (cstr s) = cstr s.
Proof.
  rewrite <- (app_nil_r (cstr s)) at 1.
  rewrite cstr_app_clean by apply cstr_no_NUL. cbn [cstr].
  apply app_nil_r.
Qed.

Lemma In_firstn (c : ascii) (n : nat) (l : list ascii) :
  In c (firstn n l) -> In c l.
Proof.
  revert l. induction n as [|n IH]; intros [|x l] H; cbn in *; try tauto.
  destruct H as [H | H]; [now left | right; now apply IH].
Qed.

(** Reading at most [n <= m] bytes of a buffer filled by
    [strncpy(_, s, m)] yields the start of [s], terminated or not. *)
Lemma firstn_cstr_strncpy (dst s : list ascii) (n m : nat) :
  (n <= m)%nat ->
  firstn n (cstr (strncpy dst s m)) = firstn n (cstr s).
Proof.
  intros Hn. unfold strncpy. rewrite firstn_app.
  destruct (Nat.le_gt_cases m (length (cstr s))) as [Hlong | Hshort].
  - replace (m - length (cstr s))%nat with O by lia.
    rewrite firstn_0, app_nil_r.
    rewrite cstr_app_clean.
    + rewrite firstn_app, length_firstn, Nat.min_l by exact Hlong.
      replace (n - m)%nat with O by lia.
      rewrite firstn_0, app_nil_r, firstn_firstn, Nat.min_l by exact Hn.
      reflexivity.
    + intros H. apply (cstr_no_NUL s). eapply In_firstn. exact H.
  - rewrite (@firstn_all2 _ m (cstr s)) by lia.
    destruct (m - length (cstr s))%nat as [|j] eqn:E; [lia|].
    destruct m as [|m']; [lia|]. cbn [repeat firstn].
    rewrite <- app_assoc, cstr_app_clean by apply cstr_no_NUL.
    cbn [app cstr]. change (Ascii.eqb NUL NUL) with true. cbn iota.
    now rewrite app_nil_r.
Qed.

Lemma fmt_precision_s_strncpy (dst s : list ascii) (k : Z) :
  0 <= k <= Z.of_nat MAX_CMD_WIDTH ->
  fmt_precision_s k (strncpy dst s MAX_CMD_WIDTH) = fmt_precision_s k s.
Proof.
  intros Hk. unfold fmt_precision_s.
  destruct (Z.ltb_spec k 0); [lia|].
  apply firstn_cstr_strncpy. lia.
Qed.

Lemma fmt_precision_s_dash (garbage : list ascii) (k : Z) :
  fmt_precision_s k (strcpy garbage (chars "-"%string)) =
  fmt_precision_s k (chars "-"%string).
Proof. reflexivity. Qed.

Lemma pids_text_length (ut_pid best_pid : Z) :
  0 < Z.of_nat (length (pids_text ut_pid best_pid)).
Proof. unfold pids_text. cbn [length]. lia. Qed.

(** The precision that reaches the final [printf] lies between 0 and
    [maxcmd]. *)
Lemma print_what_same_text (pids : bool) (ut_pid best_pid maxcmd : Z)
    (c c' : list ascii) :
  0 <= maxcmd ->
  (forall k, 0 <= k <= maxcmd -> fmt_precision_s k c = fmt_precision_s k c') ->
  print_what pids ut_pid best_pid maxcmd c =
  print_what pids ut_pid best_pid maxcmd c'.
Proof.
  intros Hm Hsame. unfold print_what.
  pose proof (pids_text_length ut_pid best_pid) as Hlen.
  destruct pids; [|now rewrite Hsame by lia].
  destruct (Z.gtb_spec (Z.of_nat (length (pids_text ut_pid best_pid))) maxcmd).
  - now rewrite Hsame by lia.
  - destruct (Z.gtb_spec (Z.of_nat (length (pids_text ut_pid best_pid))) 0);
      now rewrite Hsame by lia.
Qed.

Lemma CLAMP_CMD_WIDTH_range (cw : Z) :
  MIN_CMD_WIDTH <= CLAMP_CMD_WIDTH cw <= Z.of_nat MAX_CMD_WIDTH.
Proof.
  unfold CLAMP_CMD_WIDTH, MIN_CMD_WIDTH. rewrite MAX_CMD_WIDTH_eq.
  destruct (Z.ltb_spec cw 7);
    match goal with
    | |- context [?a >? ?b] => destruct (Z.gtb_spec a b)
    end; lia.
Qed.

Lemma main_maxcmd_range (ws_col columns : option Z) (userlen fromlen : Z)
    (from longform : bool) :
  MIN_CMD_WIDTH <= main_maxcmd ws_col columns userlen fromlen from longform
  <= Z.of_nat MAX_CMD_WIDTH.
Proof. unfold main_maxcmd. apply CLAMP_CMD_WIDTH_range. Qed.

Lemma find_best_proc_candidate_inv (ignoreuser : bool) (lookup : option Z)
    (line ut_pid : Z) (cmdline0 : list ascii) (pid0 : Z)
    (reap : list pids_stack) :
  candidate_inv cmdline0 pid0 reap
    (find_best_proc ignoreuser lookup line ut_pid cmdline0 pid0 reap).
Proof.
  assert (Hrun : forall u,
    candidate_inv cmdline0 pid0 reap
      (scan_procs ignoreuser u line ut_pid (scan_init cmdline0 pid0) reap)).
  { intros u.
    apply (candidate_inv_run ignoreuser u line ut_pid cmdline0 pid0 reap []).
    left. reflexivity. }
  unfold find_best_proc. destruct (negb ignoreuser); [|apply Hrun].
  destruct lookup; [apply Hrun | left; reflexivity].
Qed.

(** X18: the WHAT column is a space, at most [maxcmd] characters and a
    newline, where the pid pair, if asked for, takes its share of
    [maxcmd]; only a pid pair wider than [maxcmd] exceeds this, and then
    no byte of the command line is printed. *)
Theorem print_what_width (pids : bool) (ut_pid best_pid maxcmd : Z)
    (cmdline : list ascii) :
  0 <= maxcmd ->
  (pids = false
   \/ Z.of_nat (length (pids_text ut_pid best_pid)) <= maxcmd ->
   Z.of_nat (length (print_what pids ut_pid best_pid maxcmd cmdline))
   <= maxcmd + 2)
  /\ (pids = true ->
      maxcmd < Z.of_nat (length (pids_text ut_pid best_pid)) ->
      print_what pids ut_pid best_pid maxcmd cmdline =
      pids_text ut_pid best_pid ++ [" "%char; newline]).
Proof.
  intros Hm. unfold print_what.
  pose proof (pids_text_length ut_pid best_pid) as Hlen.
  assert (Hcut : forall k, 0 <= k ->
            Z.of_nat (length (fmt_precision_s k cmdline)) <= k).
  { intros k Hk. unfold fmt_precision_s. destruct (Z.ltb_spec k 0); [lia|].
    rewrite length_firstn. lia. }
  split.
  - intros H. destruct pids.
    + destruct H as [H | H]; [discriminate|].
      destruct (Z.gtb_spec (Z.of_nat (length (pids_text ut_pid best_pid)))
                  maxcmd); [lia|].
      destruct (Z.gtb_spec (Z.of_nat (length (pids_text ut_pid best_pid))) 0);
        [|lia].
      rewrite length_app. cbn [length]. rewrite length_app. cbn [length].
      specialize (Hcut (maxcmd
                        - Z.of_nat (length (pids_text ut_pid best_pid)))).
      lia.
    + cbn [app length]. rewrite length_app. cbn [length].
      specialize (Hcut maxcmd Hm). lia.
  - intros -> Hwide.
    destruct (Z.gtb_spec (Z.of_nat (length (pids_text ut_pid best_pid)))
                maxcmd); [reflexivity | lia].
Qed.

Lemma print_what_width_witness :
  Z.of_nat (length (print_what true 700 812 20 (chars "vim w.c"%string)))
  <= 20 + 2
  /\ print_what true 700 812 5 (chars "vim w.c"%string) =
     pids_text 700 812 ++ [" "%char; newline].
Proof.
  destruct (print_what_width true 700 812 20 (chars "vim w.c"%string))
    as [Hfit _]; [lia|].
  destruct (print_what_width true 700 812 5 (chars "vim w.c"%string))
    as [_ Hwide]; [lia|].
  split.
  - apply Hfit. right. vm_compute. discriminate.
  - apply Hwide; [reflexivity | vm_compute; reflexivity].
Defined.

(** X19: with the width that [main] computes, whatever the window and
    the environment say, and whatever bytes the array [cmdline] of
    [showinfo] held before the call, the WHAT column shows either the
    placeholder (and then the pid is -1 and [pcpu] is 0) or the command
    line of one process of the table, whose PID and tics are the ones
    reported; it is what printing that command line itself would give. *)
Theorem what_column_shows_chosen_command (pids ignoreuser : bool)
    (lookup : option Z) (line ut_pid : Z) (garbage : list ascii)
    (reap : list pids_stack) (ws_col columns : option Z)
    (userlen fromlen : Z) (from longform : bool) :
  let maxcmd := main_maxcmd ws_col columns userlen fromlen from longform in
  let r := find_best_proc ignoreuser lookup line ut_pid
             (strcpy garbage (chars "-"%string)) (-1) reap in
  (pid r = -1 /\ pcpu r = 0
   /\ print_what pids ut_pid (pid r) maxcmd (cmdline r) =
      print_what pids ut_pid (-1) maxcmd (chars "-"%string))
  \/ (exists p,
        In p reap /\ pid r = EU_PID p /\ pcpu r = EU_TICS_ALL p
        /\ print_what pids ut_pid (pid r) maxcmd (cmdline r) =
           print_what pids ut_pid (EU_PID p) maxcmd (EU_CMDLINE p)).
Proof.
  intros maxcmd r.
  pose proof (main_maxcmd_range ws_col columns userlen fromlen from longform)
    as Hrange. fold maxcmd in Hrange. unfold MIN_CMD_WIDTH in Hrange.
  destruct (find_best_proc_candidate_inv ignoreuser lookup line ut_pid
              (strcpy garbage (chars "-"%string)) (-1) reap)
    as [Hc | (p & Hp & Hc)]; fold r in Hc; unfold candidate in Hc.
  - left. injection Hc as -> -> ->. split; [reflexivity|].
    split; [reflexivity|].
    apply print_what_same_text; [lia|]. intros k _.
    apply fmt_precision_s_dash.
  - right. exists p. unfold candidate_of in Hc. injection Hc as -> -> ->.
    split; [exact Hp|]. split; [reflexivity|]. split; [reflexivity|].
    apply print_what_same_text; [lia|]. intros k Hk.
    apply fmt_precision_s_strncpy. lia.
Qed.

(** X20: the widths that [main] settles on: the command width lies
    between [MIN_CMD_WIDTH] and [MAX_CMD_WIDTH], the user width is 8 or a
    requested value between 8 and [UT_NAMESIZE], the FROM width is 16 or
    a requested value between 8 and [UT_HOSTSIZE]. *)
Theorem main_widths_in_range (ws_col columns env_user env_from : option Z)
    (UT_NAMESIZE UT_HOSTSIZE : Z) (from longform : bool) :
  let userlen := main_userlen UT_NAMESIZE env_user in
  let fromlen := main_fromlen UT_HOSTSIZE env_from in
  MIN_CMD_WIDTH <= main_maxcmd ws_col columns userlen fromlen from longform
    <= Z.of_nat MAX_CMD_WIDTH
  /\ (userlen = 8 \/ (env_user = Some userlen /\ 8 <= userlen <= UT_NAMESIZE))
  /\ (fromlen = 16
      \/ (env_from = Some fromlen /\ 8 <= fromlen <= UT_HOSTSIZE)).
Proof.
  intros userlen fromlen. split; [apply main_maxcmd_range|].
  subst userlen fromlen. unfold main_userlen, main_fromlen. split.
  - destruct env_user as [v|]; [|now left].
    destruct (Z.ltb_spec v 8); cbn [orb]; [now left|].
    destruct (Z.ltb_spec UT_NAMESIZE v); [now left|].
    right. split; [reflexivity | lia].
  - destruct env_from as [v|]; [|now left].
    destruct (Z.ltb_spec v 8); cbn [orb]; [now left|].
    destruct (Z.ltb_spec UT_HOSTSIZE v); [now left|].
    right. split; [reflexivity | lia].
Qed.

Lemma main_fromlen_positive (UT_HOSTSIZE : Z) (env : option Z) :
  8 <= main_fromlen UT_HOSTSIZE env.
Proof.
  unfold main_fromlen. destruct env as [v|]; [|lia].
  destruct (Z.ltb_spec v 8); cbn [orb]; [lia|].
  destruct (Z.ltb_spec UT_HOSTSIZE v); lia.
Qed.

(** X21: in every run the FROM column of a line has exactly the width
    that [main] chose, whatever [PROCPS_FROMLEN] holds and whatever the
    entry and the address conversion give. *)
Theorem from_column_has_chosen_width (isprint : ascii -> bool)
    (UT_HOSTSIZE : Z) (IN6_IS_ADDR_V4MAPPED : Z * Z * Z * Z -> bool)
    (inet_ntop_AF_INET : Z -> Z -> option (list ascii))
    (inet_ntop_AF_INET6 : Z * Z * Z * Z -> Z -> option (list ascii))
    (session : option (option (list ascii))) (u : option utmp_t)
    (ip_addresses : bool) (env_from : option Z) :
  Z.of_nat (length (print_from isprint UT_HOSTSIZE IN6_IS_ADDR_V4MAPPED
                      inet_ntop_AF_INET inet_ntop_AF_INET6 session u
                      ip_addresses (main_fromlen UT_HOSTSIZE env_from)))
  = main_fromlen UT_HOSTSIZE env_from.
Proof.
  apply print_from_length.
  pose proof (main_fromlen_positive UT_HOSTSIZE env_from). lia.
Qed.

(** * A terminal without processes *)

Lemma tty_tics_nobody (line : Z) (reap : list pids_stack) :
  Forall (fun p => EU_TTY p <> line) reap -> tty_tics line reap = 0.
Proof.
  unfold tty_tics, on_line. induction 1 as [|p reap Hp _ IH]; [reflexivity|].
  cbn [filter]. apply Z.eqb_neq in Hp. now rewrite Hp.
Qed.

Lemma leader_candidate_run (ignoreuser : bool) (uid line ut_pid : Z)
    (cmdline0 : list ascii) (pid0 : Z) (reap : list pids_stack) :
  Forall (fun p => EU_TTY p <> line) reap ->
  let st := scan_procs ignoreuser uid line ut_pid (scan_init cmdline0 pid0)
              reap in
  candidate st = (pid0, 0, cmdline0)
  \/ exists p, In p reap /\ EU_TGID p = ut_pid
               /\ candidate st = candidate_of cmdline0 p.
Proof.
  induction reap as [|p reap IH] using rev_ind; intros Hall.
  - left. reflexivity.
  - apply Forall_app in Hall. destruct Hall as [Hall Hp].
    apply Forall_inv in Hp. specialize (IH Hall). cbv zeta in *.
    rewrite scan_procs_app. cbn [scan_procs fold_left].
    set (st := scan_procs ignoreuser uid line ut_pid (scan_init cmdline0 pid0)
                 reap) in *.
    assert (Htail : skipn MAX_CMD_WIDTH (cmdline st)
                    = skipn MAX_CMD_WIDTH cmdline0).
    { destruct IH as [H | (q & _ & _ & H)]; unfold candidate, candidate_of in H;
        injection H as _ _ ->; [reflexivity | apply skipn_strncpy]. }
    destruct (concerns line ut_pid p) eqn:Ec.
    + assert (Hlead : EU_TGID p = ut_pid).
      { unfold concerns in Ec. apply Z.eqb_neq in Hp. rewrite Hp in Ec.
        rewrite orb_false_r in Ec. now apply Z.eqb_eq. }
      destruct (candidate_loop_body ignoreuser uid line ut_pid st p)
        as [E | E]; rewrite E.
      * destruct IH as [H | (q & Hq & Hl & H)]; [now left|].
        right. exists q. split; [apply in_or_app; now left | auto].
      * right. exists p. split; [apply in_or_app; right; now left|].
        split; [exact Hlead | now apply candidate_of_rebase].
    + rewrite loop_body_stranger by exact Ec.
      destruct IH as [H | (q & Hq & Hl & H)]; [now left|].
      right. exists q. split; [apply in_or_app; now left | auto].
Qed.

(** X22: when no process of the table is on the terminal, as for a tty
    whose device was not found, [jcpu] is 0 and the candidate is either
    untouched or a process whose TGID is the login pid. *)
Theorem no_process_on_terminal (ignoreuser : bool) (lookup : option Z)
    (line ut_pid : Z) (cmdline0 : list ascii) (pid0 : Z)
    (reap : list pids_stack) :
  Forall (fun p => EU_TTY p <> line) reap ->
  let r := find_best_proc ignoreuser lookup line ut_pid cmdline0 pid0 reap in
  jcpu r = 0
  /\ (candidate r = (pid0, 0, cmdline0)
      \/ exists p, In p reap /\ EU_TGID p = ut_pid
                   /\ candidate r = candidate_of cmdline0 p).
Proof.
  intros Hall r. subst r. unfold find_best_proc.
  assert (Hgo : forall u,
    let st := scan_procs ignoreuser u line ut_pid (scan_init cmdline0 pid0)
                reap in
    jcpu st = 0
    /\ (candidate st = (pid0, 0, cmdline0)
        \/ exists p, In p reap /\ EU_TGID p = ut_pid
                     /\ candidate st = candidate_of cmdline0 p)).
  { intros u. cbv zeta. split.
    - rewrite jcpu_scan_procs by apply scan_init_jcpu_reduced.
      now rewrite tty_tics_nobody.
    - now apply leader_candidate_run. }
  destruct (negb ignoreuser); [|apply Hgo].
  destruct lookup; [apply Hgo|]. split; [reflexivity | now left].
Qed.

Lemma no_process_on_terminal_witness :
  let r := find_best_proc false (Some 1000)
             (get_tty_device sample_stat (chars "ttyS9"%string)) 700
             dash_buffer (-1) [bash_proc; vim_proc; cron_proc] in
  jcpu r = 0
  /\ (candidate r = (-1, 0, dash_buffer)
      \/ exists p, In p [bash_proc; vim_proc; cron_proc] /\ EU_TGID p = 700
                   /\ candidate r = candidate_of dash_buffer p).
Proof.
  apply (no_process_on_terminal false (Some 1000)
           (get_tty_device sample_stat (chars "ttyS9"%string)) 700
           dash_buffer (-1) [bash_proc; vim_proc; cron_proc]).
  repeat constructor; vm_compute; discriminate.
Defined.
